(** * Site change monitor: the change-detection path of [main.py]

    A shallow embedding of the functions of [src/main.py] that decide
    whether the watched page changed: [normalize_text], [sha256],
    [load_state], [save_state], [build_diff] and [main] from the loaded
    configuration to the saved state.

    Python values are modelled as follows.
    - A [str] is a list of Unicode code points ([Z]); slices, [split],
      [strip], [splitlines] and [encode] work on code points as in CPython.
    - [bytes] are lists of [Z] in 0..255.
    - A value read by [json.load] is a [pyval]; a dict keeps its items in
      insertion order, the order in which [json.dump] writes them.
    - An exception that nothing catches is an explicit result.

    What lies outside the repository is kept apart.  The page fetch, the
    clock and the content of the state file are inputs of a run.
    [difflib.unified_diff] is a parameter of [build_diff] and [main], and
    module [Difflib] follows CPython's implementation of it, to run the
    functions on concrete inputs.  [hashlib.sha256] is SHA-256 as FIPS 180-4
    defines it.  The repository names no version of Python; where the
    versions differ, in what a slice of a dict raises, the version is a
    parameter of [main].  [int] of a string is a parameter of [settings].
    The file system takes every write: [save_state] alone is also modelled
    with its faults.  Of the page [main] writes, the model keeps whether it
    can be encoded, which decides whether the run reaches [save_state].

    The second part states and proves the properties: first of the text
    primitives and of the fingerprint, then of [build_diff] and
    [save_state], then of a run. *)

From Stdlib Require Import ZArith List String Ascii Bool Lia SpecFloat.
Import ListNotations.
Open Scope Z_scope.

(* ===================================================================== *)
(** ** Python text primitives *)
(* ===================================================================== *)

Module Py.

Definition char := Z.
Definition str := list char.
Definition bytes := list Z.

(** An ASCII literal as a [str]. *)
Definition lit (s : string) : str :=
  map (fun a => Z.of_N (N_of_ascii a)) (list_ascii_of_string s).

(** [ch.isspace()] for one code point, which is also the separator test
    of [str.split()] and [str.strip()] without arguments. *)
Definition isspace (c : char) : bool :=
  ((0x09 <=? c) && (c <=? 0x0D)) || ((0x1C <=? c) && (c <=? 0x20))
  || (c =? 0x85) || (c =? 0xA0) || (c =? 0x1680)
  || ((0x2000 <=? c) && (c <=? 0x200A))
  || (c =? 0x2028) || (c =? 0x2029) || (c =? 0x202F) || (c =? 0x205F)
  || (c =? 0x3000).

(** [s.split()]: the maximal runs of non-space characters.  [tok] is the
    token being read, most recent character first. *)
Fixpoint split_from (tok : str) (s : str) : list str :=
  match s with
  | [] => match tok with [] => [] | _ => [rev tok] end
  | c :: s' =>
      if isspace c
      then match tok with
           | [] => split_from [] s'
           | _ => rev tok :: split_from [] s'
           end
      else split_from (c :: tok) s'
  end.

Definition split (s : str) : list str := split_from [] s.

(** [sep.join(l)]. *)
Fixpoint join (sep : str) (l : list str) : str :=
  match l with
  | [] => []
  | x :: rest =>
      match rest with
      | [] => x
      | _ => x ++ sep ++ join sep rest
      end
  end.

Fixpoint lstrip (s : str) : str :=
  match s with
  | [] => []
  | c :: s' => if isspace c then lstrip s' else s
  end.

Definition rstrip (s : str) : str := rev (lstrip (rev s)).

(** [s.strip()]. *)
Definition strip (s : str) : str := rstrip (lstrip s).

(** [l[:n]] for any integer [n]: a negative [n] counts from the end. *)
Definition slice_to {A : Type} (l : list A) (n : Z) : list A :=
  if n <? 0
  then firstn (Z.to_nat (Z.max 0 (Z.of_nat (List.length l) + n))) l
  else firstn (Z.to_nat n) l.

(** Line boundaries of [str.splitlines()]. *)
Definition islinebreak (c : char) : bool :=
  ((0x0A <=? c) && (c <=? 0x0D)) || ((0x1C <=? c) && (c <=? 0x1E))
  || (c =? 0x85) || (c =? 0x2028) || (c =? 0x2029).

(** [s.splitlines()]: [line] is the line being read, most recent
    character first; CR LF counts as one boundary, and a boundary at the
    very end opens no further line. *)
Fixpoint splitlines_from (line : str) (s : str) : list str :=
  match s with
  | [] => match line with [] => [] | _ => [rev line] end
  | c :: s' =>
      if islinebreak c
      then match c, s' with
           | 0x0D, 0x0A :: s'' => rev line :: splitlines_from [] s''
           | _, _ => rev line :: splitlines_from [] s'
           end
      else splitlines_from (c :: line) s'
  end.

Definition splitlines (s : str) : list str := splitlines_from [] s.

(** UTF-8 of one code point; lone surrogates and values that are no code
    point have no encoding ([UnicodeEncodeError]). *)
Definition utf8_char (c : char) : option bytes :=
  if c <? 0 then None
  else if c <? 0x80 then Some [c]
  else if c <? 0x800 then
    Some [Z.lor 0xC0 (Z.shiftr c 6); Z.lor 0x80 (Z.land c 0x3F)]
  else if c <? 0x10000 then
    if (0xD800 <=? c) && (c <=? 0xDFFF) then None
    else Some [Z.lor 0xE0 (Z.shiftr c 12);
               Z.lor 0x80 (Z.land (Z.shiftr c 6) 0x3F);
               Z.lor 0x80 (Z.land c 0x3F)]
  else if c <? 0x110000 then
    Some [Z.lor 0xF0 (Z.shiftr c 18);
          Z.lor 0x80 (Z.land (Z.shiftr c 12) 0x3F);
          Z.lor 0x80 (Z.land (Z.shiftr c 6) 0x3F);
          Z.lor 0x80 (Z.land c 0x3F)]
  else None.

(** [s.encode("utf-8")]. *)
Fixpoint encode_utf8 (s : str) : option bytes :=
  match s with
  | [] => Some []
  | c :: s' =>
      match utf8_char c, encode_utf8 s' with
      | Some b, Some bs => Some (b ++ bs)
      | _, _ => None
      end
  end.

(** The strings [encode] accepts. *)
Definition encodable (s : str) : Prop := encode_utf8 s <> None.

(** A token of [split]: not empty and free of white space. *)
Definition token (t : str) : Prop :=
  t <> [] /\ Forall (fun c => isspace c = false) t.

(** A string that does not begin with white space. *)
Definition starts_clean (s : str) : Prop :=
  match s with
  | [] => True
  | c :: _ => isspace c = false
  end.

End Py.

Import Py.

(* ===================================================================== *)
(** ** SHA-256 (FIPS 180-4), as computed by [hashlib.sha256] *)
(* ===================================================================== *)

Module Sha256.

Definition w32 (x : Z) : Z := x mod 2 ^ 32.
Definition add32 (x y : Z) : Z := w32 (x + y).
Definition rotr (n x : Z) : Z :=
  w32 (Z.lor (Z.shiftr x n) (Z.shiftl x (32 - n))).
Definition shr (n x : Z) : Z := Z.shiftr x n.

Definition Ch (x y z : Z) : Z :=
  Z.lxor (Z.land x y) (Z.land (Z.lxor x 0xFFFFFFFF) z).
Definition Maj (x y z : Z) : Z :=
  Z.lxor (Z.lxor (Z.land x y) (Z.land x z)) (Z.land y z).
Definition Sigma0 (x : Z) : Z :=
  Z.lxor (Z.lxor (rotr 2 x) (rotr 13 x)) (rotr 22 x).
Definition Sigma1 (x : Z) : Z :=
  Z.lxor (Z.lxor (rotr 6 x) (rotr 11 x)) (rotr 25 x).
Definition sigma0 (x : Z) : Z :=
  Z.lxor (Z.lxor (rotr 7 x) (rotr 18 x)) (shr 3 x).
Definition sigma1 (x : Z) : Z :=
  Z.lxor (Z.lxor (rotr 17 x) (rotr 19 x)) (shr 10 x).

(** The first 64 primes. *)
Definition primes : list Z :=
  [2; 3; 5; 7; 11; 13; 17; 19; 23; 29; 31; 37; 41; 43; 47; 53;
   59; 61; 67; 71; 73; 79; 83; 89; 97; 101; 103; 107; 109; 113; 127; 131;
   137; 139; 149; 151; 157; 163; 167; 173; 179; 181; 191; 193; 197; 199;
   211; 223; 227; 229; 233; 239; 241; 251; 257; 263; 269; 271; 277; 281;
   283; 293; 307; 311].

(** The integer cube root of [n] below [2 ^ bits], bit by bit. *)
Fixpoint cube_root (bits : nat) (n r : Z) : Z :=
  match bits with
  | O => r
  | S b =>
      let r' := r + 2 ^ Z.of_nat b in
      cube_root b n (if r' * r' * r' <=? n then r' else r)
  end.

(** The round constants: the first 32 bits of the fractional parts of the
    cube roots of the first 64 primes. *)
Definition K : list Z :=
  Eval vm_compute in map (fun p => w32 (cube_root 36 (p * 2 ^ 96) 0)) primes.

(** The eight working words. *)
Record state := State {
  ha : Z; hb : Z; hc : Z; hd : Z; he : Z; hf : Z; hg : Z; hh : Z
}.

(** The initial words: the first 32 bits of the fractional parts of the
    square roots of the first 8 primes. *)
Definition H0 : state :=
  Eval vm_compute in
    let h := fun p => w32 (Z.sqrt (p * 2 ^ 64)) in
    State (h 2) (h 3) (h 5) (h 7) (h 11) (h 13) (h 17) (h 19).

(** Big-endian words of a block of bytes. *)
Fixpoint words (b : bytes) : list Z :=
  match b with
  | b0 :: b1 :: b2 :: b3 :: rest =>
      (Z.shiftl b0 24 + Z.shiftl b1 16 + Z.shiftl b2 8 + b3) :: words rest
  | _ => []
  end.

(** The message schedule: [n] further words after the sixteen of the
    block, kept most recent first. *)
Fixpoint schedule (n : nat) (rw : list Z) : list Z :=
  match n with
  | O => rw
  | S n' =>
      let w := add32 (add32 (sigma1 (nth 1 rw 0)) (nth 6 rw 0))
                     (add32 (sigma0 (nth 14 rw 0)) (nth 15 rw 0)) in
      schedule n' (w :: rw)
  end.

Definition round (s : state) (kw : Z * Z) : state :=
  let (k, w) := kw in
  let t1 := add32 (add32 (add32 (hh s) (Sigma1 (he s)))
                         (add32 (Ch (he s) (hf s) (hg s)) k)) w in
  let t2 := add32 (Sigma0 (ha s)) (Maj (ha s) (hb s) (hc s)) in
  State (add32 t1 t2) (ha s) (hb s) (hc s)
        (add32 (hd s) t1) (he s) (hf s) (hg s).

Definition compress (s : state) (block : bytes) : state :=
  let w := rev (schedule 48 (rev (words block))) in
  let t := fold_left round (combine K w) s in
  State (add32 (ha s) (ha t)) (add32 (hb s) (hb t))
        (add32 (hc s) (hc t)) (add32 (hd s) (hd t))
        (add32 (he s) (he t)) (add32 (hf s) (hf t))
        (add32 (hg s) (hg t)) (add32 (hh s) (hh t)).

(** The eight bytes of the message length in bits, big-endian. *)
Definition length_bytes (bits : Z) : bytes :=
  map (fun i => Z.land (Z.shiftr bits (8 * i)) 0xFF) [7; 6; 5; 4; 3; 2; 1; 0].

(** Padding to a multiple of 64 bytes. *)
Definition pad (m : bytes) : bytes :=
  let len := Z.of_nat (List.length m) in
  let zeros := (55 - len) mod 64 in
  m ++ [0x80] ++ repeat 0 (Z.to_nat zeros) ++ length_bytes (8 * len).

(** The state after the first [n] blocks of [m]. *)
Fixpoint blocks (n : nat) (m : bytes) (s : state) : state :=
  match n with
  | O => s
  | S n' => blocks n' (skipn 64 m) (compress s (firstn 64 m))
  end.

Definition digest (m : bytes) : state :=
  let p := pad m in
  blocks (List.length p / 64)%nat p H0.

Definition hexchar (n : Z) : char :=
  let d := Z.land n 0xF in
  if d <? 10 then 48 + d else 87 + d.

Definition hex8 (w : Z) : str :=
  map (fun i => hexchar (Z.shiftr w (4 * i))) [7; 6; 5; 4; 3; 2; 1; 0].

(** [.hexdigest()]: 64 lower-case hexadecimal digits. *)
Definition hexdigest (s : state) : str :=
  hex8 (ha s) ++ hex8 (hb s) ++ hex8 (hc s) ++ hex8 (hd s) ++
  hex8 (he s) ++ hex8 (hf s) ++ hex8 (hg s) ++ hex8 (hh s).

Definition ishex (c : char) : bool :=
  ((48 <=? c) && (c <=? 57)) || ((97 <=? c) && (c <=? 102)).

End Sha256.

(* ===================================================================== *)
(** ** [normalize_text] and [sha256] *)
(* ===================================================================== *)

(** [return " ".join(s.split()).strip()] *)
Definition normalize_text (s : str) : str :=
  strip (join (lit " ") (split s)).

(** [return hashlib.sha256(s.encode("utf-8")).hexdigest()]; [None] when
    [encode] raises. *)
Definition sha256 (s : str) : option str :=
  match encode_utf8 s with
  | Some b => Some (Sha256.hexdigest (Sha256.digest b))
  | None => None
  end.


(* ===================================================================== *)
(** ** Values read from the state file *)
(* ===================================================================== *)

(** What [json.load] can return. *)
#[warnings="-register-all"]
Inductive pyval : Type :=
| PNone
| PBool (b : bool)
| PInt (z : Z)
| PFloat (f : spec_float)
| PStr (s : str)
| PList (l : list pyval)
| PDict (d : list (str * pyval)).

(** [bool(v)] *)
Definition truthy (v : pyval) : bool :=
  match v with
  | PNone => false
  | PBool b => b
  | PInt z => negb (z =? 0)
  | PFloat (S754_zero _) => false
  | PFloat _ => true
  | PStr [] => false
  | PStr _ => true
  | PList [] => false
  | PList _ => true
  | PDict [] => false
  | PDict _ => true
  end.

Fixpoint str_eqb (s t : str) : bool :=
  match s, t with
  | [], [] => true
  | c :: s', d :: t' => (c =? d) && str_eqb s' t'
  | _, _ => false
  end.

(** [v != s] for a string [s]: only an equal string is equal to it. *)
Definition ne_str (v : pyval) (s : str) : bool :=
  match v with
  | PStr t => negb (str_eqb t s)
  | _ => true
  end.

(** [d.get(k, default)] *)
Fixpoint dict_get (d : list (str * pyval)) (k : str) (default : pyval) : pyval :=
  match d with
  | [] => default
  | (k', v) :: d' => if str_eqb k' k then v else dict_get d' k default
  end.

(** Exceptions that reach the top of [main]. *)
Inductive exn : Type :=
| AttributeError
| TypeError
| KeyError
| ValueError
| OverflowError
| UnicodeEncodeError
| OSError.

Inductive result (A : Type) : Type :=
| Ok (a : A)
| Raise (e : exn).
Arguments Ok {A} a.
Arguments Raise {A} e.

Definition bind {A B : Type} (r : result A) (k : A -> result B) : result B :=
  match r with
  | Ok a => k a
  | Raise e => Raise e
  end.

Notation "x <- r ;; k" := (bind r (fun x => k))
  (at level 61, r at next level, right associativity).

(* ===================================================================== *)
(** ** The state store *)
(* ===================================================================== *)

(** What [load_state] finds at [STATE_PATH]: no file, a file on which
    [open] or [json.load] raises, or a file [json.load] reads as [v]. *)
Inductive state_file : Type :=
| NoFile
| Unreadable
| Json (v : pyval).

(** [load_state]:
    [if not STATE_PATH.exists(): return {}],
    [return json.load(f) or {}], [except Exception: return {}]. *)
Definition load_state (f : state_file) : pyval :=
  match f with
  | NoFile => PDict []
  | Unreadable => PDict []
  | Json v => if truthy v then v else PDict []
  end.

(** [ESCAPE_DCT] of [json.encoder]: the replacement of one character in a
    string written with [ensure_ascii=False]. *)
Definition json_escape (c : char) : str :=
  if c =? 34 then [92; 34]
  else if c =? 92 then [92; 92]
  else if c =? 8 then [92; 98]
  else if c =? 12 then [92; 102]
  else if c =? 10 then [92; 110]
  else if c =? 13 then [92; 114]
  else if c =? 9 then [92; 116]
  else if (0 <=? c) && (c <? 0x20) then
    [92; 117; 48; 48; Sha256.hexchar (Z.shiftr c 4); Sha256.hexchar c]
  else [c].

(** [encode_basestring] *)
Definition json_string (s : str) : str :=
  [34] ++ flat_map json_escape s ++ [34].

Fixpoint json_items (first : bool) (d : list (str * str)) : list str :=
  match d with
  | [] => []
  | (k, v) :: d' =>
      (if first then [] else [[44; 10; 32; 32]])
      ++ [json_string k; lit ": "; json_string v]
      ++ json_items false d'
  end.

(** The chunks [json.dump(state, f, ensure_ascii=False, indent=2)] hands to
    [f.write], one after the other, for a dict of strings. *)
Definition json_dump_chunks (d : list (str * str)) : list str :=
  match d with
  | [] => [lit "{}"]
  | _ => [lit "{"; [10; 32; 32]] ++ json_items true d ++ [[10]; lit "}"]
  end.

(** Writing chunks to a file opened with [encoding="utf-8"]: a chunk that
    cannot be encoded raises and leaves what was written before it. *)
Fixpoint write_chunks (chunks : list str) (written : bytes) : bytes * bool :=
  match chunks with
  | [] => (written, true)
  | c :: rest =>
      match encode_utf8 c with
      | Some b => write_chunks rest (written ++ b)
      | None => (written, false)
      end
  end.

(** What can go wrong in the file system during [save_state]: nothing,
    [mkdir] raises, [open] raises, or the device takes only [n] bytes. *)
Inductive fault : Type :=
| NoFault
| MkdirFails
| OpenFails
| WriteFails (n : nat).

(** The state file on disk: absent, or its bytes. *)
Definition disk := option bytes.

(** [save_state]:
    [DATA_DIR.mkdir(parents=True, exist_ok=True)],
    [with STATE_PATH.open("w", encoding="utf-8") as f: json.dump(...)].
    Opening with ["w"] empties the file before anything is written. *)
Definition save_state (flt : fault) (state : list (str * str)) (d : disk)
  : disk * result unit :=
  match flt with
  | MkdirFails => (d, Raise OSError)
  | OpenFails => (d, Raise OSError)
  | NoFault =>
      let (b, ok) := write_chunks (json_dump_chunks state) [] in
      (Some b, if ok then Ok tt else Raise UnicodeEncodeError)
  | WriteFails n =>
      let (b, ok) := write_chunks (json_dump_chunks state) [] in
      if (n <? List.length b)%nat then (Some (firstn n b), Raise OSError)
      else (Some b, if ok then Ok tt else Raise UnicodeEncodeError)
  end.

(* ===================================================================== *)
(** ** The run: [build_diff] and [main] *)
(* ===================================================================== *)

(** The interpreter that runs [main.py].  From Python 3.12 on a slice can
    be hashed, so that [d[:n]] on a dict is a lookup that fails. *)
Inductive python : Type :=
| Before_3_12
| From_3_12.

(** ["Site Change Monitor (Lite)"] *)
Definition SITE_TITLE : str := lit "Site Change Monitor (Lite)".

(** The values lines 218 to 221 of [main] take from the configuration:
    [site_title], any value of JSON; [target_url], which this model takes
    to be a string; and the number [int] made of [max_text_chars], absent
    when the configuration has no such key.  The user agent only reaches
    the fetch. *)
Record config : Type := Config {
  site_title : pyval;
  target_url : str;
  max_text_chars : option Z
}.

(** [max_chars], as line 221 leaves it: the limit of the configuration, or
    20000. *)
Definition max_chars (cfg : config) : Z :=
  match max_text_chars cfg with
  | Some n => n
  | None => 20000
  end.

Section Settings.

(** [int(s)] of a string, [None] for [ValueError]: Python's reading of a
    number, with its white space, signs, underscores and digits of every
    script. *)
Variable int_of_str : str -> option Z.

(** [int(v)] of a value of JSON: a float is cut towards zero, and what is
    no number raises. *)
Definition int_ (v : pyval) : result Z :=
  match v with
  | PNone => Raise TypeError
  | PBool b => Ok (if b then 1 else 0)
  | PInt z => Ok z
  | PFloat (S754_zero _) => Ok 0
  | PFloat (S754_infinity _) => Raise OverflowError
  | PFloat S754_nan => Raise ValueError
  | PFloat (S754_finite sign m e) =>
      let magnitude := Z.shiftl (Z.pos m) e in
      Ok (if sign then - magnitude else magnitude)
  | PStr s =>
      match int_of_str s with
      | Some z => Ok z
      | None => Raise ValueError
      end
  | PList _ => Raise TypeError
  | PDict _ => Raise TypeError
  end.

(** [d.get(k)] without a default: [None] when the key is missing. *)
Fixpoint dict_find (d : list (str * pyval)) (k : str) : option pyval :=
  match d with
  | [] => None
  | (k', v) :: d' => if str_eqb k' k then Some v else dict_find d' k
  end.

(** Lines 218 to 221 of [main], on the dict [load_config] returned:
    [site_title = cfg.get("site_title", "Site Change Monitor (Lite)")],
    [target_url = cfg["target_url"]] and
    [max_chars = int(cfg.get("max_text_chars", 20000))], which raises,
    outside every [try], when the value is no number; without the key the
    limit stays absent, and [max_chars] is the default.  [Ok None]: the
    [target_url] is no string, a configuration this model does not
    follow. *)
Definition settings (cfg : list (str * pyval)) : result (option config) :=
  limit <- match dict_find cfg (lit "max_text_chars") with
           | Some v => n <- int_ v ;; Ok (Some n)
           | None => Ok None
           end ;;
  match dict_get cfg (lit "target_url") PNone with
  | PStr url =>
      Ok (Some {|
        site_title := dict_get cfg (lit "site_title") (PStr SITE_TITLE);
        target_url := url;
        max_text_chars := limit
      |})
  | _ => Ok None
  end.

End Settings.

(** What the fetch delivers: an exception of [requests], or the title and
    the text [soup.get_text(" ", strip=True)] of the page. *)
Inductive page : Type :=
| FetchError
| Page (title : str) (text : str).

(** The title of a fetched page. *)
Definition title_of (p : page) : str :=
  match p with
  | FetchError => []
  | Page title _ => title
  end.

(** [fetch_page_text]: the text leaves it normalized. *)
Definition fetch_page_text (p : page) : result (str * str) :=
  match p with
  | FetchError => Raise OSError
  | Page title text => Ok (title, normalize_text text)
  end.

Definition CHANGE_DETECTED : str := lit "Change detected".
Definition NO_CHANGE_DETECTED : str := lit "No change detected".
Definition DIFF_TRUNCATED : str := lit "... (diff truncated)".

(** ["(no previous snapshot yet — run once more to compare)"] *)
Definition NO_PREVIOUS : str :=
  lit "(no previous snapshot yet " ++ [0x2014] ++ lit " run once more to compare)".

(** The loop of [build_diff] over the lines the diff yields:
    [for i, line in enumerate(diff)], [if i >= max_lines], [append] the
    marker and [break], else [append] the line. *)
Fixpoint build_diff_out (i : Z) (diff : list str) (max_lines : Z) : list str :=
  match diff with
  | [] => []
  | line :: rest =>
      if i >=? max_lines then [DIFF_TRUNCATED]
      else line :: build_diff_out (i + 1) rest max_lines
  end.

(** What a run that reached the comparison computed. *)
Record report : Type := Report {
  status : str;
  run_at : str;
  prev_hash : pyval;
  cur_hash : str;
  snippet : str;
  diff_text : str;
  state_out : list (str * str)
}.

(** How a run ends: [return 1] after a failed fetch, an uncaught
    exception, or [return 0]. *)
Inductive outcome : Type :=
| Exit1
| Uncaught (e : exn)
| Exit0 (r : report).

(** A run: how it ended and what it left in the state file ([None]: the
    file was not touched).  A run that raises while it writes the pages or
    saves the state has computed its report already. *)
Record run : Type := Run {
  ended : outcome;
  computed : option report;
  saved : option bytes
}.

(* ===================================================================== *)
(** ** The rendered page *)
(* ===================================================================== *)

Definition nl : str := [10].
Definition dq : str := [34].

(** The text of [assets/style.css], of [robots.txt] and of [sitemap.xml]. *)
Definition STYLE_CSS : str :=
  lit ":root { color-scheme: dark; }" ++ nl
  ++ lit "body { font-family: ui-sans-serif, system-ui, -apple-system, Segoe UI, Roboto, Arial, sans-serif;" ++ nl
  ++ lit "       margin: 0; background: #0b0f17; color: #e7eefc; }" ++ nl
  ++ lit "a { color: #8ab4ff; }" ++ nl
  ++ lit ".container { max-width: 980px; margin: 0 auto; padding: 24px; }" ++ nl
  ++ lit ".card { background: rgba(255,255,255,0.06); border: 1px solid rgba(255,255,255,0.10);" ++ nl
  ++ lit "        border-radius: 16px; padding: 16px 18px; margin: 14px 0; }" ++ nl
  ++ lit ".kv { display: grid; grid-template-columns: 180px 1fr; gap: 10px; }" ++ nl
  ++ lit "code, pre { background: rgba(0,0,0,0.35); border: 1px solid rgba(255,255,255,0.10);" ++ nl
  ++ lit "           border-radius: 12px; }" ++ nl
  ++ lit "pre { padding: 12px; overflow: auto; }" ++ nl
  ++ lit ".badge { display:inline-block; padding: 4px 10px; border-radius: 999px;" ++ nl
  ++ lit "         background: rgba(138,180,255,0.18); border: 1px solid rgba(138,180,255,0.35); }" ++ nl
  ++ lit ".badge.ok { background: rgba(80, 200, 120, 0.18); border-color: rgba(80, 200, 120, 0.35); }" ++ nl
  ++ lit ".badge.changed { background: rgba(255, 120, 120, 0.18); border-color: rgba(255, 120, 120, 0.35); }" ++ nl
  ++ lit ".small { opacity: 0.85; font-size: 0.95rem; }" ++ nl.

Definition ROBOTS_TXT : str :=
  lit "User-agent: *" ++ nl
  ++ lit "Allow: /" ++ nl.

Definition SITEMAP_XML : str :=
  lit "<?xml version=" ++ dq ++ lit "1.0" ++ dq ++ lit " encoding=" ++ dq ++ lit "UTF-8" ++ dq ++ lit "?>" ++ nl
  ++ lit "<urlset xmlns=" ++ dq ++ lit "http://www.sitemaps.org/schemas/sitemap/0.9" ++ dq ++ lit ">" ++ nl
  ++ lit "  <url><loc>./index.html</loc></url>" ++ nl
  ++ lit "</urlset>" ++ nl.

(** The literal parts of the f-string of [render_html], between its twelve
    replacement fields. *)
Definition PAGE_TEMPLATE : list str :=
  [ (lit "<!doctype html>" ++ nl
     ++ lit "<html lang=" ++ dq ++ lit "en" ++ dq ++ lit ">" ++ nl
     ++ lit "<head>" ++ nl
     ++ lit "  <meta charset=" ++ dq ++ lit "utf-8" ++ dq ++ lit " />" ++ nl
     ++ lit "  <meta name=" ++ dq ++ lit "viewport" ++ dq ++ lit " content=" ++ dq ++ lit "width=device-width, initial-scale=1" ++ dq ++ lit " />" ++ nl
     ++ lit "  <title>")
  ; (lit "</title>" ++ nl
     ++ lit "  <link rel=" ++ dq ++ lit "stylesheet" ++ dq ++ lit " href=" ++ dq ++ lit "assets/style.css" ++ dq ++ lit " />" ++ nl
     ++ lit "</head>" ++ nl
     ++ lit "<body>" ++ nl
     ++ lit "  <div class=" ++ dq ++ lit "container" ++ dq ++ lit ">" ++ nl
     ++ lit "    <h1>")
  ; (lit "</h1>" ++ nl
     ++ lit "    <p class=" ++ dq ++ lit "small" ++ dq ++ lit ">Target: <a href=" ++ dq)
  ; (dq ++ lit ">")
  ; (lit "</a></p>" ++ nl
     ++ nl
     ++ lit "    <div class=" ++ dq ++ lit "card" ++ dq ++ lit ">" ++ nl
     ++ lit "      <div class=" ++ dq ++ lit "kv" ++ dq ++ lit ">" ++ nl
     ++ lit "        <div>Status</div>" ++ nl
     ++ lit "        <div><span class=" ++ dq ++ lit "badge ")
  ; (dq ++ lit ">")
  ; (lit "</span></div>" ++ nl
     ++ lit "        <div>Checked at</div>" ++ nl
     ++ lit "        <div>")
  ; (lit " (UTC)</div>" ++ nl
     ++ lit "        <div>Page title</div>" ++ nl
     ++ lit "        <div>")
  ; (lit "</div>" ++ nl
     ++ lit "        <div>Previous hash</div>" ++ nl
     ++ lit "        <div><code>")
  ; (lit "</code></div>" ++ nl
     ++ lit "        <div>Current hash</div>" ++ nl
     ++ lit "        <div><code>")
  ; (lit "</code></div>" ++ nl
     ++ lit "      </div>" ++ nl
     ++ lit "    </div>" ++ nl
     ++ nl
     ++ lit "    <div class=" ++ dq ++ lit "card" ++ dq ++ lit ">" ++ nl
     ++ lit "      <h2>Current snippet</h2>" ++ nl
     ++ lit "      <p class=" ++ dq ++ lit "small" ++ dq ++ lit ">First ~500 characters of the extracted text.</p>" ++ nl
     ++ lit "      <pre>")
  ; (lit "</pre>" ++ nl
     ++ lit "    </div>" ++ nl
     ++ nl
     ++ lit "    <div class=" ++ dq ++ lit "card" ++ dq ++ lit ">" ++ nl
     ++ lit "      <h2>Diff (previous " ++ [0x2192] ++ lit " current)</h2>" ++ nl
     ++ lit "      <p class=" ++ dq ++ lit "small" ++ dq ++ lit ">Unified diff of extracted text (limited). If this is empty and status is " ++ dq ++ lit "No change" ++ dq ++ lit "," ++ nl
     ++ lit "      the content matched the previous run.</p>" ++ nl
     ++ lit "      <pre>")
  ; (lit "</pre>" ++ nl
     ++ lit "    </div>" ++ nl
     ++ nl
     ++ lit "    <p class=" ++ dq ++ lit "small" ++ dq ++ lit ">Generated by Site Change Monitor (Lite) via GitHub Actions.</p>" ++ nl
     ++ lit "  </div>" ++ nl
     ++ lit "</body>" ++ nl
     ++ lit "</html>" ++ nl) ].

(** A part of a page: text, or a value that is no string, of which the
    f-string shows [str(v)]. *)
Inductive piece : Type :=
| Text (s : str)
| Value (v : pyval).

(** [{v}] in an f-string. *)
Definition shown (v : pyval) : piece :=
  match v with
  | PStr s => Text s
  | _ => Value v
  end.

(** An f-string: its literal parts with the values of its fields between
    them. *)
Fixpoint weave (parts : list str) (values : list piece) : list piece :=
  match parts, values with
  | p :: parts', v :: values' => Text p :: v :: weave parts' values'
  | p :: _, [] => [Text p]
  | [], _ => []
  end.

(** [render_html].  Nothing is escaped: [safe_diff] and [safe_snippet] are
    the diff text and the snippet themselves. *)
Definition render_html (site_title : pyval)
  (target_url page_title status run_at : str) (prev_hash : pyval)
  (cur_hash diff_text snippet : str) : list piece :=
  let badge_class :=
    if str_eqb status (lit "No change detected") then lit "ok"
    else lit "changed" in
  let safe_diff := diff_text in
  let safe_snippet := snippet in
  weave PAGE_TEMPLATE
    [shown site_title; shown site_title;
     Text target_url; Text target_url;
     Text badge_class; Text status; Text run_at;
     Text (match page_title with
           | [] => lit "(no title found)"
           | _ => page_title
           end);
     (if truthy prev_hash then shown prev_hash else Text (lit "-"));
     Text cur_hash; Text safe_snippet; Text safe_diff].

(** Whether a part of a page has a UTF-8 encoding.  The text Python shows
    for a number, for [True], [None], a list or a dict has one: [repr]
    writes the characters of their strings that cannot be printed, the
    lone surrogates among them, as escapes. *)
Definition piece_encodable (p : piece) : bool :=
  match p with
  | Text s => match encode_utf8 s with Some _ => true | None => false end
  | Value _ => true
  end.

(** [path.write_text(page, encoding="utf-8")] on a file system that takes
    the write: it raises when the page cannot be encoded. *)
Definition write_text (page : list piece) : result unit :=
  if forallb piece_encodable page then Ok tt else Raise UnicodeEncodeError.

(** The values that decide whether the page can be written: those that
    are strings must have an encoding. *)
Definition page_values_encodable (site_title : pyval)
  (target_url page_title status run_at : str) (prev_hash : pyval)
  (cur_hash diff_text snippet : str) : Prop :=
  (forall s, site_title = PStr s -> encodable s)
  /\ encodable target_url
  /\ encodable page_title
  /\ encodable status
  /\ encodable run_at
  /\ (forall s, prev_hash = PStr s -> encodable s)
  /\ encodable cur_hash
  /\ encodable snippet
  /\ encodable diff_text.

(** [write_static_assets], [write_robots] and [write_sitemap] *)
Definition write_static_assets : result unit := write_text [Text STYLE_CSS].
Definition write_robots : result unit := write_text [Text ROBOTS_TXT].
Definition write_sitemap : result unit := write_text [Text SITEMAP_XML].

Section Classifier.

(** [difflib.unified_diff(a, b, fromfile="previous", tofile="current",
    lineterm="")]: all the lines it yields. *)
Variable unified_diff : list str -> list str -> list str.

(** The version of Python. *)
Variable py : python.

(** [build_diff(prev, cur, max_lines)] *)
Definition build_diff (prev cur : str) (max_lines : Z) : str :=
  let prev_lines := splitlines prev in
  let cur_lines := splitlines cur in
  let diff := unified_diff prev_lines cur_lines in
  join [10] (build_diff_out 0 diff max_lines).

(** Lines 242 to 245 of [main]: the diff against the stored text.  A
    stored text that is no string raises: a number or a boolean at the
    slice [prev_text[:5000]], which they do not have; a dict at the slice
    as well, [TypeError] while a slice cannot be hashed and [KeyError] from
    Python 3.12 on, where the slice is looked up; a list at
    [prev.splitlines()]. *)
Definition diff_of (prev_text : pyval) (cur_text : str) : result str :=
  if truthy prev_text then
    match prev_text with
    | PStr p => Ok (build_diff (slice_to p 5000) (slice_to cur_text 5000) 220)
    | PList _ => Raise AttributeError
    | PDict _ =>
        Raise (match py with
               | Before_3_12 => TypeError
               | From_3_12 => KeyError
               end)
    | _ => Raise TypeError
    end
  else Ok NO_PREVIOUS.

(** Lines 221 to 245 and 265 to 271 of [main]: from the loaded state and
    the fetched page to the report and the state to save.  [None] is
    [return 1] after a failed fetch. *)
Definition compare (cfg : config) (state : pyval) (pg : page) (now : str)
  : result (option report) :=
  match state with
  | PDict d =>
      let prev_text := dict_get d (lit "last_text") (PStr []) in
      let prev_hash := dict_get d (lit "last_hash") (PStr []) in
      match fetch_page_text pg with
      | Raise _ => Ok None
      | Ok (page_title, cur_text) =>
          let cur_text := slice_to cur_text (max_chars cfg) in
          match sha256 cur_text with
          | None => Raise UnicodeEncodeError
          | Some cur_hash =>
              let changed :=
                ne_str prev_hash [] && ne_str prev_hash cur_hash in
              let status :=
                if changed then CHANGE_DETECTED else NO_CHANGE_DETECTED in
              let snippet := slice_to cur_text 500 in
              diff_text <- diff_of prev_text cur_text ;;
              Ok (Some {|
                status := status;
                run_at := now;
                prev_hash := prev_hash;
                cur_hash := cur_hash;
                snippet := snippet;
                diff_text := diff_text;
                state_out :=
                  [(lit "target_url", target_url cfg);
                   (lit "last_checked_utc", now);
                   (lit "last_hash", cur_hash);
                   (lit "last_title", page_title);
                   (lit "last_text", cur_text)]
              |})
          end
      end
  | _ => Raise AttributeError
  end.

(** Lines 247 to 262 of [main]: the three constant files, then
    [index.html] with the page [render_html] made of the report. *)
Definition write_pages (cfg : config) (page_title : str) (r : report)
  : result unit :=
  u <- write_static_assets ;;
  u <- write_robots ;;
  u <- write_sitemap ;;
  write_text (render_html (site_title cfg) (target_url cfg) page_title
                (status r) (run_at r) (prev_hash r) (cur_hash r)
                (diff_text r) (snippet r)).

(** [main] from line 223 on, for a run without [--selftest] with the
    values [cfg] of lines 218 to 221: [observed] is what [load_state]
    finds, [pg] what the fetch delivers, [now] the time stamp
    [utcnow().replace(microsecond=0).isoformat()].  The pages are written
    before the state is saved: a page that cannot be encoded ends the run
    with the state file untouched.  The file system takes every write, so
    what the state file held before does not matter. *)
Definition main (cfg : config) (observed : state_file) (pg : page)
  (now : str) : run :=
  match compare cfg (load_state observed) pg now with
  | Raise e => Run (Uncaught e) None None
  | Ok None => Run Exit1 None None
  | Ok (Some r) =>
      match write_pages cfg (title_of pg) r with
      | Raise e => Run (Uncaught e) (Some r) None
      | Ok _ =>
          match save_state NoFault (state_out r) None with
          | (d, Ok _) => Run (Exit0 r) (Some r) d
          | (d, Raise e) => Run (Uncaught e) (Some r) d
          end
      end
  end.

End Classifier.

(** The state of one run as the next run loads it: the same dict, as
    [pyval]. *)
Definition as_loaded (s : list (str * str)) : pyval :=
  PDict (map (fun kv => (fst kv, PStr (snd kv))) s).

(** The dict [state_out] of lines 265 to 271, by its five values. *)
Definition state_of (url now h title text : str) : list (str * str) :=
  [(lit "target_url", url);
   (lit "last_checked_utc", now);
   (lit "last_hash", h);
   (lit "last_title", title);
   (lit "last_text", text)].

(** [d[k]] of a saved state. *)
Fixpoint field (d : list (str * str)) (k : str) : option str :=
  match d with
  | [] => None
  | (k', v) :: d' => if str_eqb k' k then Some v else field d' k
  end.

(** The stored hash as a previous digest: [main] takes the empty string,
    its default for a missing key, for no digest. *)
Definition previous_digest (r : report) : option pyval :=
  if ne_str (prev_hash r) [] then Some (prev_hash r) else None.

(** Whether [load_state] found a snapshot: it returns [{}] when it found
    none. *)
Definition has_snapshot (observed : state_file) : bool :=
  match load_state observed with
  | PDict [] => false
  | _ => true
  end.

(* ===================================================================== *)
(** ** The statements of the specification *)
(* ===================================================================== *)

Module Spec.

(** Section 3: the three classifications of a run. *)
Inductive classification : Type := Unseen | Unchanged | Changed.

(** Section 3, "Invariant across a run", with the sentence on [diff]: the
    classification is Unchanged exactly when a previous digest is present
    and equals the current digest, Unseen exactly when no prior snapshot
    existed, Changed otherwise, and the diff is empty when no prior
    snapshot existed or the digests match. *)
Definition classification_invariant (prior : bool)
  (previous current : option pyval) (c : classification) (diff : str) : Prop :=
  (c = Unchanged <-> previous <> None /\ previous = current)
  /\ (c = Unseen <-> prior = false)
  /\ (c = Changed <-> c <> Unchanged /\ c <> Unseen)
  /\ (prior = false \/ (previous <> None /\ previous = current) -> diff = []).

(** Section 4.5, steps 1 and 2: truncate the raw text to [max_text_chars]
    characters, then normalize the truncated text. *)
Definition truncate_then_normalize (raw : str) (max_text_chars : Z) : str :=
  normalize_text (slice_to raw max_text_chars).

(** Section 4.3: the output is cut to [max_output_lines] lines and, when it
    was cut, its last line is the truncation marker. *)
Definition truncated_to (marker : str) (natural out : list str)
  (max_output_lines : Z) : Prop :=
  (Z.of_nat (List.length natural) > max_output_lines ->
   Z.of_nat (List.length out) = max_output_lines /\ last out [] = marker)
  /\ (Z.of_nat (List.length natural) <= max_output_lines -> out = natural).

(** Section 4.4, [save]: the record on disk afterwards is the old one or
    the whole new one. *)
Definition all_or_nothing (before after whole : option bytes) : Prop :=
  after = before \/ after = whole.

(** Sections 4.4 and 8, [load] on a missing, unreadable or corrupt record:
    it returns "absent", and the run that follows classifies as Unseen. *)
Definition recovers_as_unseen (loaded : pyval)
  (shown : option classification) : Prop :=
  loaded = PDict [] /\ shown = Some Unseen.

(** Sections 4.2 and 8, determinism: for all text [T],
    [fingerprint(normalize(T))] is a digest of fixed length in hexadecimal
    digits, and two calls with equal text yield identical digests. *)
Definition deterministic_digest (fingerprint : str -> option str) : Prop :=
  forall T T' : str,
    exists d d',
      fingerprint (normalize_text T) = Some d
      /\ fingerprint (normalize_text T') = Some d'
      /\ forallb Sha256.ishex d = true
      /\ List.length d = List.length d'
      /\ (T = T' -> d = d').


End Spec.

(** The classification a report shows.  [main] has two statuses,
    ["Change detected"] and ["No change detected"], and none for a first
    run. *)
Definition reported (r : report) : Spec.classification :=
  if str_eqb (status r) CHANGE_DETECTED then Spec.Changed else Spec.Unchanged.



(* ===================================================================== *)
(** ** [difflib.unified_diff] of CPython *)
(* ===================================================================== *)

(** The theorems below hold for every function in the place of
    [difflib.unified_diff].  To run the classifier on concrete inputs this
    module follows CPython's [difflib]: [SequenceMatcher] without a junk
    test and with its automatic junk heuristic, [get_grouped_opcodes] with
    three lines of context, and the formatting of [unified_diff]. *)
Module Difflib.

Local Open Scope nat_scope.

Definition count_in (x : str) (b : list str) : nat :=
  List.length (filter (str_eqb x) b).

(** [bpopular]: with 200 lines or more, a line that occurs more than
    [n // 100 + 1] times is dropped from [b2j]. *)
Definition popular (b : list str) (x : str) : bool :=
  (200 <=? List.length b) && (List.length b / 100 + 1 <? count_in x b).

Fixpoint indices_from (j : nat) (x : str) (b : list str) : list nat :=
  match b with
  | [] => []
  | y :: b' =>
      if str_eqb y x then j :: indices_from (S j) x b'
      else indices_from (S j) x b'
  end.

(** [b2j.get(x, [])] *)
Definition b2j (b : list str) (x : str) : list nat :=
  if popular b x then [] else indices_from 0 x b.

Fixpoint j2len_get (m : list (nat * nat)) (j : nat) : nat :=
  match m with
  | [] => 0
  | (j', k) :: m' => if j' =? j then k else j2len_get m' j
  end.

(** The inner loop of [find_longest_match] over the places [js] of
    [a[i]] in [b]; the state is [newj2len] and the best match so far. *)
Fixpoint match_row (i blo bhi : nat) (j2len : list (nat * nat))
  (js : list nat) (acc : list (nat * nat) * (nat * nat * nat))
  : list (nat * nat) * (nat * nat * nat) :=
  match js with
  | [] => acc
  | j :: js' =>
      if j <? blo then match_row i blo bhi j2len js' acc
      else if bhi <=? j then acc
      else
        let '(newj2len, (besti, bestj, bestsize)) := acc in
        let k := j2len_get j2len (j - 1) + 1 in
        let k := match j with O => 1 | _ => k end in
        let best :=
          if bestsize <? k then (i + 1 - k, j + 1 - k, k)
          else (besti, bestj, bestsize) in
        match_row i blo bhi j2len js' ((j, k) :: newj2len, best)
  end.

(** The outer loop, [for i in range(alo, ahi)], over [n] further rows. *)
Fixpoint match_rows (a b : list str) (n i blo bhi : nat)
  (j2len : list (nat * nat)) (best : nat * nat * nat) : nat * nat * nat :=
  match n with
  | O => best
  | S n' =>
      let '(newj2len, best') :=
        match_row i blo bhi j2len (b2j b (nth i a [])) ([], best) in
      match_rows a b n' (S i) blo bhi newj2len best'
  end.

Fixpoint extend_down (a b : list str) (fuel alo blo : nat)
  (best : nat * nat * nat) : nat * nat * nat :=
  match fuel with
  | O => best
  | S fuel' =>
      let '(besti, bestj, bestsize) := best in
      if (alo <? besti) && (blo <? bestj)
         && str_eqb (nth (besti - 1) a []) (nth (bestj - 1) b [])
      then extend_down a b fuel' alo blo (besti - 1, bestj - 1, bestsize + 1)
      else best
  end.

Fixpoint extend_up (a b : list str) (fuel ahi bhi : nat)
  (best : nat * nat * nat) : nat * nat * nat :=
  match fuel with
  | O => best
  | S fuel' =>
      let '(besti, bestj, bestsize) := best in
      if (besti + bestsize <? ahi) && (bestj + bestsize <? bhi)
         && str_eqb (nth (besti + bestsize) a []) (nth (bestj + bestsize) b [])
      then extend_up a b fuel' ahi bhi (besti, bestj, bestsize + 1)
      else best
  end.

(** [find_longest_match(alo, ahi, blo, bhi)]; no line is junk, so the two
    loops over junk lines do nothing. *)
Definition find_longest_match (a b : list str) (alo ahi blo bhi : nat)
  : nat * nat * nat :=
  let best := match_rows a b (ahi - alo) alo blo bhi [] (alo, blo, 0) in
  let best := extend_down a b (List.length a) alo blo best in
  extend_up a b (List.length a) ahi bhi best.

(** The loop of [get_matching_blocks] over its stack of regions. *)
Fixpoint blocks_loop (a b : list str) (fuel : nat)
  (queue : list (nat * nat * nat * nat)) (found : list (nat * nat * nat))
  : list (nat * nat * nat) :=
  match fuel, queue with
  | S fuel', (alo, ahi, blo, bhi) :: rest =>
      let '(i, j, k) := find_longest_match a b alo ahi blo bhi in
      match k with
      | O => blocks_loop a b fuel' rest found
      | _ =>
          let q1 := if (alo <? i) && (blo <? j)
                    then [(alo, i, blo, j)] else [] in
          let q2 := if (i + k <? ahi) && (j + k <? bhi)
                    then [(i + k, ahi, j + k, bhi)] else [] in
          blocks_loop a b fuel' (q2 ++ q1 ++ rest) (found ++ [(i, j, k)])
      end
  | _, _ => found
  end.

Definition block_leb (x y : nat * nat * nat) : bool :=
  let '(i1, j1, k1) := x in
  let '(i2, j2, k2) := y in
  (i1 <? i2) || ((i1 =? i2) && ((j1 <? j2) || ((j1 =? j2) && (k1 <=? k2)))).

Fixpoint insert_block (x : nat * nat * nat) (l : list (nat * nat * nat)) :=
  match l with
  | [] => [x]
  | y :: l' => if block_leb x y then x :: l else y :: insert_block x l'
  end.

Definition sort_blocks (l : list (nat * nat * nat)) :=
  fold_right insert_block [] l.

(** Adjacent blocks are merged; [cur] is [(i1, j1, k1)]. *)
Fixpoint collapse (cur : nat * nat * nat) (l : list (nat * nat * nat))
  : list (nat * nat * nat) :=
  let '(i1, j1, k1) := cur in
  match l with
  | [] => match k1 with O => [] | _ => [cur] end
  | (i2, j2, k2) :: l' =>
      if (i1 + k1 =? i2) && (j1 + k1 =? j2)
      then collapse (i1, j1, k1 + k2) l'
      else match k1 with
           | O => collapse (i2, j2, k2) l'
           | _ => cur :: collapse (i2, j2, k2) l'
           end
  end.

Definition get_matching_blocks (a b : list str) : list (nat * nat * nat) :=
  let la := List.length a in
  let lb := List.length b in
  let found := blocks_loop a b (2 * (la + lb) + 1) [(0, la, 0, lb)] [] in
  collapse (0, 0, 0) (sort_blocks found) ++ [(la, lb, 0)].

Inductive tag : Type := Replace | Delete | Insert | Equal.

Definition opcode : Type := tag * nat * nat * nat * nat.

Fixpoint opcodes_from (i j : nat) (blocks : list (nat * nat * nat))
  : list opcode :=
  match blocks with
  | [] => []
  | (ai, bj, size) :: rest =>
      let change :=
        if (i <? ai) && (j <? bj) then [(Replace, i, ai, j, bj)]
        else if i <? ai then [(Delete, i, ai, j, bj)]
        else if j <? bj then [(Insert, i, ai, j, bj)]
        else [] in
      let same :=
        match size with
        | O => []
        | _ => [(Equal, ai, ai + size, bj, bj + size)]
        end in
      change ++ same ++ opcodes_from (ai + size) (bj + size) rest
  end.

Definition get_opcodes (a b : list str) : list opcode :=
  opcodes_from 0 0 (get_matching_blocks a b).

Definition is_equal (t : tag) : bool :=
  match t with Equal => true | _ => false end.

Definition trim_first (n : nat) (codes : list opcode) : list opcode :=
  match codes with
  | (Equal, i1, i2, j1, j2) :: rest =>
      (Equal, Nat.max i1 (i2 - n), i2, Nat.max j1 (j2 - n), j2) :: rest
  | _ => codes
  end.

Fixpoint trim_last (n : nat) (codes : list opcode) : list opcode :=
  match codes with
  | [] => []
  | [(Equal, i1, i2, j1, j2)] =>
      [(Equal, i1, Nat.min i2 (i1 + n), j1, Nat.min j2 (j1 + n))]
  | c :: rest => c :: trim_last n rest
  end.

(** The loop of [get_grouped_opcodes]; [group] is the group being
    filled. *)
Fixpoint group_loop (n : nat) (codes : list opcode) (group : list opcode)
  : list (list opcode) :=
  match codes with
  | [] =>
      match group with
      | [] => []
      | [(Equal, _, _, _, _)] => []
      | _ => [group]
      end
  | (t, i1, i2, j1, j2) :: rest =>
      if is_equal t && (n + n <? i2 - i1)
      then (group ++ [(t, i1, Nat.min i2 (i1 + n), j1, Nat.min j2 (j1 + n))])
           :: group_loop n rest
                [(t, Nat.max i1 (i2 - n), i2, Nat.max j1 (j2 - n), j2)]
      else group_loop n rest (group ++ [(t, i1, i2, j1, j2)])
  end.

Definition get_grouped_opcodes (a b : list str) (n : nat)
  : list (list opcode) :=
  let codes := get_opcodes a b in
  let codes := match codes with [] => [(Equal, 0, 1, 0, 1)] | _ => codes end in
  group_loop n (trim_last n (trim_first n codes)) [].

Fixpoint decimal_from (fuel : nat) (n : nat) (acc : str) : str :=
  match fuel with
  | O => acc
  | S fuel' =>
      let acc' := (48 + Z.of_nat (n mod 10))%Z :: acc in
      match n / 10 with
      | O => acc'
      | q => decimal_from fuel' q acc'
      end
  end.

(** ['{}'.format(n)] *)
Definition decimal (n : nat) : str := decimal_from (S n) n [].

Definition format_range_unified (start stop : nat) : str :=
  let beginning := start + 1 in
  let length := stop - start in
  match length with
  | 1 => decimal beginning
  | O => decimal (beginning - 1) ++ lit "," ++ decimal length
  | _ => decimal beginning ++ lit "," ++ decimal length
  end.

Definition slice {A : Type} (l : list A) (i1 i2 : nat) : list A :=
  firstn (i2 - i1) (skipn i1 l).

Definition opcode_lines (a b : list str) (c : opcode) : list str :=
  let '(t, i1, i2, j1, j2) := c in
  match t with
  | Equal => map (fun l => 32%Z :: l) (slice a i1 i2)
  | Replace => map (fun l => 45%Z :: l) (slice a i1 i2)
               ++ map (fun l => 43%Z :: l) (slice b j1 j2)
  | Delete => map (fun l => 45%Z :: l) (slice a i1 i2)
  | Insert => map (fun l => 43%Z :: l) (slice b j1 j2)
  end.

Definition group_lines (a b : list str) (g : list opcode) : list str :=
  match g, rev g with
  | (_, f1, _, f3, _) :: _, (_, _, l2, _, l4) :: _ =>
      (lit "@@ -" ++ format_range_unified f1 l2 ++ lit " +"
       ++ format_range_unified f3 l4 ++ lit " @@")
      :: flat_map (opcode_lines a b) g
  | _, _ => []
  end.

(** [unified_diff(a, b, fromfile="previous", tofile="current",
    lineterm="")] *)
Definition unified_diff (a b : list str) : list str :=
  match get_grouped_opcodes a b 3 with
  | [] => []
  | groups =>
      [lit "--- previous"; lit "+++ current"]
      ++ flat_map (group_lines a b) groups
  end.

End Difflib.

(* ===================================================================== *)
(** ** Concrete runs *)
(* ===================================================================== *)

Module Sample.

(** The samples run on Python 3.12. *)
Definition py : python := From_3_12.

Definition url : str := lit "https://example.org/".

Definition with_limit (limit : option Z) : config :=
  Config (PStr SITE_TITLE) url limit.

Definition cfg : config := with_limit None.

(** The same target with [max_text_chars] set to 3, to 0 and to -2. *)
Definition cfg3 : config := with_limit (Some 3).
Definition cfg_neg : config := with_limit (Some (-2)).

Definition monday : str := lit "2024-05-06T12:00:00".
Definition tuesday : str := lit "2024-05-07T12:00:00".

Definition hello_world : page := Page (lit "Example") (lit "hello   world").
Definition hello_there : page := Page (lit "Example") (lit "hello there").

(** A page whose text is [a], two spaces, [b]. *)
Definition a_b : page := Page (lit "Example") (lit "a  b").

(** A first run, with no state file, and what it reports and saves. *)
Definition first_run : run :=
  main Difflib.unified_diff py cfg NoFile hello_world monday.

Definition hash_hello_world : str :=
  lit "b94d27b9934d3e08a52e52d7da7dabfac484efe37a5380ee9088f7ace2efcde9".

Definition hash_hello_there : str :=
  lit "12998c017066eb0d2a70b94e6ed3192985855ce390f321bbdb832022888bd251".

Definition first_report : report := {|
  status := NO_CHANGE_DETECTED;
  run_at := monday;
  prev_hash := PStr [];
  cur_hash := hash_hello_world;
  snippet := lit "hello world";
  diff_text := NO_PREVIOUS;
  state_out := state_of (lit "https://example.org/") monday hash_hello_world
                        (lit "Example") (lit "hello world")
|}.

(** The state the first run saved, as the next run loads it. *)
Definition after_first_run : state_file :=
  Json (as_loaded (state_out first_report)).

(** The next run finds the page changed. *)
Definition second_run : run :=
  main Difflib.unified_diff py cfg after_first_run hello_there tuesday.

Definition second_report : report := {|
  status := CHANGE_DETECTED;
  run_at := tuesday;
  prev_hash := PStr hash_hello_world;
  cur_hash := hash_hello_there;
  snippet := lit "hello there";
  diff_text := join [10] [lit "--- previous"; lit "+++ current";
                          lit "@@ -1 +1 @@"; lit "-hello world";
                          lit "+hello there"];
  state_out := state_of (lit "https://example.org/") tuesday hash_hello_there
                        (lit "Example") (lit "hello there")
|}.

(** Or it finds the same page again. *)
Definition repeat_run : run :=
  main Difflib.unified_diff py cfg after_first_run hello_world tuesday.

(** The text a run stores, if it computed a report. *)
Definition stored (x : run) : option (option str) :=
  option_map (fun r => field (state_out r) (lit "last_text")) (computed x).

(** A state file that holds the JSON text [[1]]. *)
Definition list_file : state_file := Json (PList [PInt 1]).

End Sample.


(* ===================================================================== *)
(** ** Normal forms of [normalize_text] *)
(* ===================================================================== *)

(** [well_spaced after s]: every white space character of [s] is a single
    U+0020 that stands between two characters that are no white space;
    [after] says that the character before [s] was white space or that [s]
    is at the start. *)
Fixpoint well_spaced (after : bool) (s : str) : bool :=
  match s with
  | [] => negb after
  | c :: s' =>
      if isspace c then (c =? 32) && negb after && well_spaced true s'
      else well_spaced false s'
  end.

(** The texts [normalize_text] leaves as they are: the empty text, and the
    words separated by single spaces. *)
Definition normal (s : str) : bool :=
  match s with
  | [] => true
  | _ => well_spaced true s
  end.

(** As [well_spaced], but the text may end after a space. *)
Fixpoint spaced (after : bool) (s : str) : bool :=
  match s with
  | [] => true
  | c :: s' =>
      if isspace c then (c =? 32) && negb after && spaced true s'
      else spaced false s'
  end.

(** The characters of a text that are no white space, in their order. *)
Definition visible (s : str) : str := filter (fun c => negb (isspace c)) s.

(* ===================================================================== *)
(** ** [load_config], [selftest] and the start of [main] *)
(* ===================================================================== *)

(** What [load_config] finds at [config.json]: no file, a file on which
    [open] or [json.load] raises, or a file [json.load] reads as [v]. *)
Inductive config_file : Type :=
| NoConfig
| BadConfig
| ConfigJson (v : pyval).

(** The exceptions of [load_config]: [FileNotFoundError], an exception of
    [open] or [json.load], and the two [ValueError]s. *)
Inductive config_error : Type :=
| ConfigNotFound
| ConfigUnreadable
| ConfigNotAnObject
| TargetUrlRequired.

(** [load_config] *)
Definition load_config (f : config_file)
  : config_error + list (str * pyval) :=
  match f with
  | NoConfig => inl ConfigNotFound
  | BadConfig => inl ConfigUnreadable
  | ConfigJson (PDict cfg) =>
      if truthy (dict_get cfg (lit "target_url") PNone) then inr cfg
      else inl TargetUrlRequired
  | ConfigJson _ => inl ConfigNotAnObject
  end.

(** [s.startswith(prefix)] *)
Fixpoint startswith (s prefix : str) {struct prefix} : bool :=
  match prefix, s with
  | [], _ => true
  | p :: prefix', c :: s' => (c =? p) && startswith s' prefix'
  | _ :: _, [] => false
  end.

(** [selftest(cfg)]; [dirs_ok] says whether both [mkdir] calls succeed.  A
    [target_url] that is no string has no [startswith]. *)
Definition selftest (cfg : list (str * pyval)) (dirs_ok : bool) : result Z :=
  match dict_get cfg (lit "target_url") (PStr []) with
  | PStr url =>
      if negb (startswith url (lit "http://") || startswith url (lit "https://"))
      then Ok 1
      else if dirs_ok then Ok 0 else Ok 1
  | _ => Raise AttributeError
  end.

(** Lines 204 to 216 of [main]: how a run starts.  It returns 1 when
    [load_config] raises, runs [selftest] under [--selftest], and otherwise
    goes on with the configuration. *)
Inductive started : Type :=
| Returned (code : Z)
| Raised (e : exn)
| Proceeds (cfg : list (str * pyval)).

Definition start (with_selftest : bool) (f : config_file) (dirs_ok : bool)
  : started :=
  match load_config f with
  | inl _ => Returned 1
  | inr cfg =>
      if with_selftest then
        match selftest cfg dirs_ok with
        | Ok code => Returned code
        | Raise e => Raised e
        end
      else Proceeds cfg
  end.

(* ===================================================================== *)
(** ** Reading back what [save_state] wrote *)
(* ===================================================================== *)

(** These two readers are no part of the program: they serve to show that
    what [save_state] writes determines the state it was given. *)

Definition hexval (c : char) : Z := if c <? 58 then c - 48 else c - 87.

Definition json_unescaped (x : char) : char :=
  if x =? 98 then 8
  else if x =? 102 then 12
  else if x =? 110 then 10
  else if x =? 114 then 13
  else if x =? 116 then 9
  else x.

(** The string that ends at the first quote that is not escaped, and what
    follows that quote. *)
Fixpoint json_scan (s : str) : option (str * str) :=
  match s with
  | [] => None
  | c :: rest =>
      if c =? 34 then Some ([], rest)
      else if c =? 92 then
        match rest with
        | [] => None
        | x :: rest' =>
            if x =? 117 then
              match rest' with
              | _ :: _ :: a :: b :: rest'' =>
                  match json_scan rest'' with
                  | Some (v, r) => Some ((hexval a * 16 + hexval b) :: v, r)
                  | None => None
                  end
              | _ => None
              end
            else
              match json_scan rest' with
              | Some (v, r) => Some (json_unescaped x :: v, r)
              | None => None
              end
        end
      else
        match json_scan rest with
        | Some (v, r) => Some (c :: v, r)
        | None => None
        end
  end.

(** The code points of a sequence of UTF-8 bytes. *)
Fixpoint utf8_decode (b : bytes) : str :=
  match b with
  | [] => []
  | b0 :: r =>
      if b0 <? 0x80 then b0 :: utf8_decode r
      else if b0 <? 0xE0 then
        match r with
        | b1 :: r' => ((b0 - 0xC0) * 64 + (b1 - 0x80)) :: utf8_decode r'
        | _ => []
        end
      else if b0 <? 0xF0 then
        match r with
        | b1 :: b2 :: r' =>
            ((b0 - 0xE0) * 4096 + (b1 - 0x80) * 64 + (b2 - 0x80))
            :: utf8_decode r'
        | _ => []
        end
      else
        match r with
        | b1 :: b2 :: b3 :: r' =>
            ((b0 - 0xF0) * 262144 + (b1 - 0x80) * 4096 + (b2 - 0x80) * 64
             + (b3 - 0x80)) :: utf8_decode r'
        | _ => []
        end
  end.
(* ===================================================================== *)
(** ** Known answers *)
(* ===================================================================== *)

Example sha256_empty :
  sha256 (lit "")
  = Some (lit "e3b0c44298fc1c149afbf4c8996fb92427ae41e4649b934ca495991b7852b855").
Proof. vm_compute. reflexivity. Qed.

Example sha256_abc :
  sha256 (lit "abc")
  = Some (lit "ba7816bf8f01cfea414140de5dae2223b00361a396177a9cb410ff61f20015ad").
Proof. vm_compute. reflexivity. Qed.

Example sha256_two_blocks :
  sha256 (lit "abcdbcdecdefdefgefghfghighijhijkijkljklmklmnlmnomnopnopq")
  = Some (lit "248d6a61d20638b8e5c026930c3e6039a33ce45964ff2167f6ecedd419db06c1").
Proof. vm_compute. reflexivity. Qed.

Example normalize_collapses :
  normalize_text [97; 32; 10; 10; 32; 98; 9; 32; 99] = lit "a b c".
Proof. reflexivity. Qed.

Example sha256_multibyte :
  sha256 [233; 8212; 128512]
  = Some (lit "9c70d083895eab4b0d64f6f195b55e57006cc238836b2ce48e3926a94200259f").
Proof. vm_compute. reflexivity. Qed.

Example sha256_padding_edges :
  sha256 (repeat 120 55)
  = Some (lit "d5e285683cd4efc02d021a5c62014694958901005d6f71e89e0989fac77e4072")
  /\ sha256 (repeat 120 56)
  = Some (lit "04c26261370ee7541549d16dee320c723e3fd14671e66a099afe0a377c16888e")
  /\ sha256 (repeat 120 64)
  = Some (lit "7ce100971f64e7001e8fe5a51973ecdfe1ced42befe7ee8d5fd6219506b5393c").
Proof. vm_compute. repeat split; reflexivity. Qed.

Example sha256_lone_surrogate : sha256 [0xD800] = None.
Proof. reflexivity. Qed.

(* ===================================================================== *)
(** ** Text primitives *)
(* ===================================================================== *)

Section TextLemmas.

Lemma str_eqb_eq (s t : str) : str_eqb s t = true <-> s = t.
Proof.
  revert t; induction s as [|c s IH]; intros [|d t]; simpl;
    try (split; (discriminate || reflexivity)).
  rewrite andb_true_iff, Z.eqb_eq, IH.
  split; [intros [-> ->]; reflexivity | intros [= -> ->]; auto].
Qed.

Lemma str_eqb_refl (s : str) : str_eqb s s = true.
Proof. apply str_eqb_eq; reflexivity. Qed.

Lemma str_eqb_neq (s t : str) : str_eqb s t = false <-> s <> t.
Proof.
  rewrite <- str_eqb_eq. destruct (str_eqb s t); split; congruence.
Qed.

Lemma isspace_space : isspace 32 = true.
Proof. reflexivity. Qed.

Lemma split_from_tokens (s tok : str) :
  Forall (fun c => isspace c = false) tok ->
  Forall token (split_from tok s).
Proof.
  revert tok; induction s as [|c s IH]; intros tok Htok; simpl.
  - destruct tok as [|d tok]; constructor; [|constructor].
    split.
    + intros E. apply (f_equal (@List.length Z)) in E.
      rewrite length_rev in E. discriminate.
    + apply Forall_rev; assumption.
  - destruct (isspace c) eqn:Ec.
    + destruct tok as [|d tok]; [apply IH; constructor|].
      constructor; [|apply IH; constructor].
      split.
      * intros E. apply (f_equal (@List.length Z)) in E.
        rewrite length_rev in E. discriminate.
      * apply Forall_rev; assumption.
    + apply IH. constructor; assumption.
Qed.

Lemma split_tokens (s : str) : Forall token (split s).
Proof. apply split_from_tokens; constructor. Qed.

(** Reading a run of characters that are no white space only grows the
    token at hand. *)
Lemma split_from_run (t tok rest : str) :
  Forall (fun c => isspace c = false) t ->
  split_from tok (t ++ rest) = split_from (rev t ++ tok) rest.
Proof.
  revert tok; induction t as [|c t IH]; intros tok Ht; [reflexivity|].
  inversion Ht as [|? ? Hc Ht']; subst.
  cbn [app split_from]. rewrite Hc, IH by assumption.
  cbn [rev]. rewrite <- app_assoc. reflexivity.
Qed.

Lemma split_token (t : str) : token t -> split t = [t].
Proof.
  intros [Hne Ht]. unfold split.
  rewrite <- (app_nil_r t) at 1.
  rewrite split_from_run by assumption.
  rewrite app_nil_r. cbn [split_from].
  destruct (rev t) as [|c r] eqn:Er.
  - apply (f_equal (@rev Z)) in Er. rewrite rev_involutive in Er.
    contradiction.
  - rewrite <- Er, rev_involutive. reflexivity.
Qed.

(** Splitting the result of a join gives the tokens back. *)
Lemma split_join (toks : list str) :
  Forall token toks -> split (join (lit " ") toks) = toks.
Proof.
  induction toks as [|t toks IH]; intros H; [reflexivity|].
  inversion H as [|? ? Ht Htoks]; subst.
  destruct toks as [|t' toks'].
  - cbn [join]. apply split_token; assumption.
  - change (join (lit " ") (t :: t' :: toks'))
      with (t ++ 32 :: join (lit " ") (t' :: toks')).
    destruct Ht as [Hne Ht]. unfold split.
    rewrite split_from_run by assumption.
    rewrite app_nil_r. cbn [split_from]. rewrite isspace_space.
    destruct (rev t) as [|c r] eqn:Er.
    + apply (f_equal (@rev Z)) in Er. rewrite rev_involutive in Er.
      contradiction.
    + rewrite <- Er, rev_involutive. f_equal. apply IH; assumption.
Qed.

Lemma lstrip_clean (s : str) : starts_clean s -> lstrip s = s.
Proof. destruct s as [|c s]; simpl; [reflexivity|]. intros ->; reflexivity. Qed.

Lemma rstrip_clean (s : str) : starts_clean (rev s) -> rstrip s = s.
Proof.
  intros H. unfold rstrip. rewrite lstrip_clean by assumption.
  apply rev_involutive.
Qed.

Lemma starts_clean_app (s t : str) :
  s <> [] -> starts_clean s -> starts_clean (s ++ t).
Proof. destruct s; [contradiction | simpl; auto]. Qed.

Lemma token_starts_clean (t : str) : token t -> starts_clean t.
Proof. intros [_ H]. destruct t; [exact I|]. inversion H; assumption. Qed.

Lemma token_ends_clean (t : str) : token t -> starts_clean (rev t).
Proof.
  intros [_ H]. apply Forall_rev in H.
  destruct (rev t); [exact I|]. inversion H; assumption.
Qed.

Lemma rev_not_nil (t : str) : t <> [] -> rev t <> [].
Proof.
  intros Hne E. apply Hne.
  apply (f_equal (@rev Z)) in E. rewrite rev_involutive in E. exact E.
Qed.

Lemma join_not_nil (t : str) (toks : list str) :
  t <> [] -> join (lit " ") (t :: toks) <> [].
Proof.
  intros Hne. destruct toks; cbn [join]; [assumption|].
  destruct t; [contradiction | discriminate].
Qed.

Lemma join_starts_clean (toks : list str) :
  Forall token toks -> starts_clean (join (lit " ") toks).
Proof.
  destruct toks as [|t toks]; intros H; [exact I|].
  inversion H as [|? ? Ht _]; subst.
  destruct toks; cbn [join].
  - apply token_starts_clean; assumption.
  - apply starts_clean_app; [apply Ht | apply token_starts_clean; assumption].
Qed.

Lemma join_ends_clean (toks : list str) :
  Forall token toks -> starts_clean (rev (join (lit " ") toks)).
Proof.
  induction toks as [|t toks IH]; intros H; [exact I|].
  inversion H as [|? ? Ht Htoks]; subst.
  destruct toks as [|t' toks'].
  - cbn [join]. apply token_ends_clean; assumption.
  - change (join (lit " ") (t :: t' :: toks'))
      with (t ++ lit " " ++ join (lit " ") (t' :: toks')).
    rewrite !rev_app_distr, <- app_assoc.
    apply starts_clean_app; [|apply IH; assumption].
    apply rev_not_nil, join_not_nil.
    inversion Htoks as [|? ? [Hne _] _]; assumption.
Qed.

Lemma strip_join (toks : list str) :
  Forall token toks ->
  strip (join (lit " ") toks) = join (lit " ") toks.
Proof.
  intros H. unfold strip.
  rewrite lstrip_clean by (apply join_starts_clean; assumption).
  apply rstrip_clean, join_ends_clean; assumption.
Qed.

(** [normalize_text] is the join of the tokens. *)
Lemma normalize_text_join (s : str) :
  normalize_text s = join (lit " ") (split s).
Proof. apply strip_join, split_tokens. Qed.

End TextLemmas.

(** C10. Normalization is idempotent: for every string [s],
    [normalize_text (normalize_text s)] is [normalize_text s]; normalizing a
    text that is already normalized leaves it unchanged. *)
Theorem normalize_text_idempotent (s : str) :
  normalize_text (normalize_text s) = normalize_text s.
Proof.
  rewrite (normalize_text_join s).
  rewrite normalize_text_join.
  rewrite split_join by apply split_tokens.
  reflexivity.
Qed.


(* ===================================================================== *)
(** ** Encoding and fingerprint *)
(* ===================================================================== *)

Section Encoding.

Lemma encodable_Forall (s : str) :
  encodable s <-> Forall (fun c => utf8_char c <> None) s.
Proof.
  unfold encodable. induction s as [|c s IH]; simpl.
  - split; [constructor | discriminate].
  - destruct (utf8_char c) eqn:Ec.
    + destruct (encode_utf8 s) eqn:Es.
      * split; [|discriminate]. intros _. constructor; [congruence|].
        apply IH; discriminate.
      * split; [congruence|]. intros H. inversion H; subst.
        exfalso. apply (proj2 IH); auto.
    + split; [congruence|]. intros H. inversion H; subst. congruence.
Qed.

Lemma encodable_some (s : str) :
  encodable s -> exists b, encode_utf8 s = Some b.
Proof.
  unfold encodable. destruct (encode_utf8 s) as [b|]; [eauto|congruence].
Qed.


Lemma encodable_lit (s : string) :
  Forall (fun c => utf8_char c <> None) (lit s) -> encodable (lit s).
Proof. apply encodable_Forall. Qed.

Variable P : char -> Prop.

Lemma split_from_Forall (s tok : str) :
  Forall P tok -> Forall P s -> Forall (Forall P) (split_from tok s).
Proof.
  revert tok; induction s as [|c s IH]; intros tok Htok Hs; simpl.
  - destruct tok; constructor; [apply Forall_rev; assumption | constructor].
  - inversion Hs; subst. destruct (isspace c).
    + destruct tok; [apply IH; auto|].
      constructor; [apply Forall_rev; assumption | apply IH; auto].
    + apply IH; auto.
Qed.

Lemma join_Forall (sep : str) (l : list str) :
  Forall P sep -> Forall (Forall P) l -> Forall P (join sep l).
Proof.
  intros Hsep. induction l as [|x l IH]; intros H; [constructor|].
  inversion H; subst. destruct l as [|y l]; cbn [join]; [assumption|].
  rewrite !Forall_app. auto.
Qed.

Lemma lstrip_Forall (s : str) : Forall P s -> Forall P (lstrip s).
Proof.
  induction s as [|c s IH]; intros H; simpl; [constructor|].
  destruct (isspace c); [inversion H; auto | assumption].
Qed.

Lemma strip_Forall (s : str) : Forall P s -> Forall P (strip s).
Proof.
  intros H. unfold strip, rstrip.
  apply Forall_rev, lstrip_Forall, Forall_rev, lstrip_Forall, H.
Qed.

Lemma normalize_text_Forall (s : str) :
  P 32 -> Forall P s -> Forall P (normalize_text s).
Proof.
  intros Hsp H. unfold normalize_text.
  apply strip_Forall, join_Forall; [repeat constructor; assumption|].
  apply split_from_Forall; [constructor | assumption].
Qed.

Lemma firstn_Forall (n : nat) (s : str) :
  Forall P s -> Forall P (firstn n s).
Proof.
  revert s; induction n as [|n IH]; intros s H; [constructor|].
  destruct s; [constructor|]. inversion H; subst. constructor; auto.
Qed.

Lemma slice_to_Forall (s : str) (n : Z) :
  Forall P s -> Forall P (slice_to s n).
Proof.
  intros H. unfold slice_to. destruct (n <? 0); apply firstn_Forall; assumption.
Qed.

End Encoding.

Lemma normalize_text_encodable (s : str) :
  encodable s -> encodable (normalize_text s).
Proof.
  rewrite !encodable_Forall. apply normalize_text_Forall. discriminate.
Qed.

Lemma slice_to_encodable (s : str) (n : Z) :
  encodable s -> encodable (slice_to s n).
Proof. rewrite !encodable_Forall. apply slice_to_Forall. Qed.

Lemma hexchar_ishex (n : Z) : Sha256.ishex (Sha256.hexchar n) = true.
Proof.
  unfold Sha256.hexchar, Sha256.ishex.
  assert (H : 0 <= Z.land n 0xF < 16).
  { change 0xF with (Z.ones 4). rewrite Z.land_ones by lia.
    apply Z.mod_pos_bound. reflexivity. }
  destruct (Z.land n 15 <? 10) eqn:E;
    [apply Z.ltb_lt in E | apply Z.ltb_ge in E];
    rewrite orb_true_iff, !andb_true_iff, !Z.leb_le; lia.
Qed.

Lemma hex8_length (w : Z) : List.length (Sha256.hex8 w) = 8%nat.
Proof. reflexivity. Qed.

Lemma hex8_ishex (w : Z) : forallb Sha256.ishex (Sha256.hex8 w) = true.
Proof.
  unfold Sha256.hex8. cbn [map forallb]. rewrite !hexchar_ishex. reflexivity.
Qed.

Lemma hexdigest_length (s : Sha256.state) :
  List.length (Sha256.hexdigest s) = 64%nat.
Proof. unfold Sha256.hexdigest. rewrite !length_app, !hex8_length. reflexivity. Qed.

Lemma hexdigest_ishex (s : Sha256.state) :
  forallb Sha256.ishex (Sha256.hexdigest s) = true.
Proof. unfold Sha256.hexdigest. rewrite !forallb_app, !hex8_ishex. reflexivity. Qed.

Lemma ishex_encodable (d : str) :
  forallb Sha256.ishex d = true -> encodable d.
Proof.
  intros H. apply encodable_Forall. rewrite forallb_forall in H.
  apply Forall_forall. intros c Hc. specialize (H c Hc).
  unfold Sha256.ishex in H. unfold utf8_char.
  rewrite orb_true_iff, !andb_true_iff, !Z.leb_le in H.
  destruct (c <? 0) eqn:E0; [apply Z.ltb_lt in E0; lia|].
  destruct (c <? 128) eqn:E1; [discriminate | apply Z.ltb_ge in E1; lia].
Qed.

Lemma sha256_some (s : str) :
  encodable s ->
  exists b, encode_utf8 s = Some b
            /\ sha256 s = Some (Sha256.hexdigest (Sha256.digest b)).
Proof.
  intros H. destruct (encodable_some s H) as [b Hb].
  exists b. unfold sha256. rewrite Hb. auto.
Qed.

Lemma sha256_digest_shape (s d : str) :
  sha256 s = Some d ->
  List.length d = 64%nat /\ forallb Sha256.ishex d = true.
Proof.
  unfold sha256. destruct (encode_utf8 s); [|discriminate].
  intros [= <-]. split; [apply hexdigest_length | apply hexdigest_ishex].
Qed.

Lemma sha256_encodable (s d : str) : sha256 s = Some d -> encodable s.
Proof. unfold sha256, encodable. destruct (encode_utf8 s); congruence. Qed.

(** C8, as the code has it.  [sha256] has no input but the text and reads
    it through its UTF-8 bytes.  For every text [T], the call on
    [normalize_text T] raises exactly when the normalized text has no
    UTF-8 encoding, and otherwise yields 64 hexadecimal digits in lower
    case; two texts that [split] cuts into the same words, equal texts
    among them, get the same outcome.  The digest is SHA-256: on the
    messages of FIPS 180-4, on a text of two, three and four bytes to the
    character, on a text with a run of spaces, on the empty text and on
    texts of 55, 56 and 200 bytes, around the ends of the padding, it
    yields the digests that SHA-256 of the UTF-8 bytes has. *)
Theorem sha256_is_deterministic_hex_digest (T T' : str) :
  (sha256 (normalize_text T) = None <-> ~ encodable (normalize_text T))
  /\ (forall d, sha256 (normalize_text T) = Some d ->
      List.length d = 64%nat /\ forallb Sha256.ishex d = true)
  /\ (split T = split T' ->
      sha256 (normalize_text T) = sha256 (normalize_text T'))
  /\ sha256 (normalize_text (lit "abc"))
     = Some (lit "ba7816bf8f01cfea414140de5dae2223b00361a396177a9cb410ff61f20015ad")
  /\ sha256 (normalize_text
               (lit "abcdbcdecdefdefgefghfghighijhijkijkljklmklmnlmnomnopnopq"))
     = Some (lit "248d6a61d20638b8e5c026930c3e6039a33ce45964ff2167f6ecedd419db06c1")
  /\ sha256 (normalize_text [233; 8212; 128512])
     = Some (lit "9c70d083895eab4b0d64f6f195b55e57006cc238836b2ce48e3926a94200259f")
  /\ sha256 (normalize_text (lit "hello   world"))
     = Some (lit "b94d27b9934d3e08a52e52d7da7dabfac484efe37a5380ee9088f7ace2efcde9")
  /\ sha256 (normalize_text [])
     = Some (lit "e3b0c44298fc1c149afbf4c8996fb92427ae41e4649b934ca495991b7852b855")
  /\ sha256 (normalize_text (repeat 120 55))
     = Some (lit "d5e285683cd4efc02d021a5c62014694958901005d6f71e89e0989fac77e4072")
  /\ sha256 (normalize_text (repeat 120 56))
     = Some (lit "04c26261370ee7541549d16dee320c723e3fd14671e66a099afe0a377c16888e")
  /\ sha256 (normalize_text (repeat 120 200))
     = Some (lit "aa20c23e3201834050679e1d88941b9a6fed0557c9a705cb2c315e2e63fd486d").
Proof.
  split.
  { unfold sha256, encodable.
    destruct (encode_utf8 (normalize_text T)) as [b|]; split.
    - discriminate.
    - intros H. exfalso. apply H. discriminate.
    - intros _ H. apply H. reflexivity.
    - reflexivity. }
  split; [intros d Hd; exact (sha256_digest_shape _ d Hd)|].
  split.
  { intros H. rewrite !normalize_text_join, H. reflexivity. }
  repeat split; vm_compute; reflexivity.
Qed.

(** C8 as the specification states it fails: a text with a lone
    surrogate, which normalization keeps, has no UTF-8 encoding, and
    [sha256] raises [UnicodeEncodeError] in the place of a digest. *)
Lemma sha256_raises_on_lone_surrogate :
  normalize_text [0xD800] = [0xD800]
  /\ sha256 (normalize_text [0xD800]) = None
  /\ ~ Spec.deterministic_digest sha256.
Proof.
  split; [reflexivity|]. split; [reflexivity|].
  intros H. destruct (H [0xD800] []) as (d & d' & H1 & _).
  vm_compute in H1. discriminate H1.
Qed.


(* ===================================================================== *)
(** ** [build_diff] *)
(* ===================================================================== *)

(** The loop keeps the lines while the index is below [max_lines] and puts
    the marker in the place of the first line at or beyond it. *)
Lemma build_diff_out_from (diff : list str) (i max_lines : Z) :
  build_diff_out i diff max_lines
  = if (List.length diff <=? Z.to_nat (max_lines - i))%nat then diff
    else firstn (Z.to_nat (max_lines - i)) diff ++ [DIFF_TRUNCATED].
Proof.
  revert i; induction diff as [|line rest IH]; intros i; [reflexivity|].
  cbn [build_diff_out]. destruct (i >=? max_lines) eqn:E.
  - apply Z.geb_le in E.
    replace (Z.to_nat (max_lines - i)) with 0%nat by lia. reflexivity.
  - rewrite Z.geb_leb in E. apply Z.leb_gt in E.
    replace (Z.to_nat (max_lines - i))
      with (S (Z.to_nat (max_lines - (i + 1)))) by lia.
    rewrite IH. cbn [List.length Nat.leb firstn].
    destruct (List.length rest <=? Z.to_nat (max_lines - (i + 1)))%nat;
      reflexivity.
Qed.

Lemma build_diff_out_length (diff : list str) (max_lines : Z) :
  List.length (build_diff_out 0 diff max_lines)
  = if (List.length diff <=? Z.to_nat max_lines)%nat then List.length diff
    else S (Z.to_nat max_lines).
Proof.
  rewrite build_diff_out_from, Z.sub_0_r.
  destruct (List.length diff <=? Z.to_nat max_lines)%nat eqn:E; [reflexivity|].
  apply Nat.leb_gt in E.
  rewrite length_app, length_firstn. cbn [List.length]. lia.
Qed.

(** C2, as the code has it.  For every pair of texts, every line cap and
    every diff generator: when the diff has more lines than [max_lines]
    (taken as 0 when negative), [build_diff] returns its first [max_lines]
    lines unchanged followed by the marker line, [max_lines + 1] lines in
    all, the last of them the marker; otherwise it returns all lines of the
    diff unchanged and no marker. *)
Theorem build_diff_appends_marker
  (unified_diff : list str -> list str -> list str)
  (prev cur : str) (max_lines : Z) :
  let natural := unified_diff (splitlines prev) (splitlines cur) in
  let n := Z.to_nat max_lines in
  let out := if (List.length natural <=? n)%nat then natural
             else firstn n natural ++ [DIFF_TRUNCATED] in
  build_diff unified_diff prev cur max_lines = join [10] out
  /\ List.length out
     = (if (List.length natural <=? n)%nat then List.length natural else S n)
  /\ ((List.length natural <=? n)%nat = false ->
      last out [] = DIFF_TRUNCATED /\ firstn n out = firstn n natural).
Proof.
  intros natural n out. unfold build_diff. fold natural.
  rewrite build_diff_out_from, Z.sub_0_r. fold n. fold out.
  split; [reflexivity|]. split.
  - subst out. destruct (List.length natural <=? n)%nat eqn:E; [reflexivity|].
    apply Nat.leb_gt in E. rewrite length_app, length_firstn.
    cbn [List.length]. lia.
  - intros E. subst out. rewrite E. split; [apply last_last|].
    apply Nat.leb_gt in E.
    rewrite firstn_app, firstn_firstn, Nat.min_id, length_firstn.
    replace (n - Nat.min n (List.length natural))%nat with 0%nat by lia.
    apply app_nil_r.
Qed.

(** C2 as the specification states it fails: the diff of ["hello world"]
    and ["hello there"] has five lines; cut at two, [build_diff] returns
    three lines, the two headers and the marker, not two. *)
Lemma build_diff_exceeds_line_cap :
  let natural := Difflib.unified_diff (splitlines (lit "hello world"))
                                      (splitlines (lit "hello there")) in
  let out := splitlines (build_diff Difflib.unified_diff (lit "hello world")
                                    (lit "hello there") 2) in
  List.length natural = 5%nat
  /\ out = [lit "--- previous"; lit "+++ current"; DIFF_TRUNCATED]
  /\ ~ Spec.truncated_to DIFF_TRUNCATED natural out 2.
Proof.
  cbv zeta. split; [reflexivity|]. split; [reflexivity|].
  intros [H _].
  assert (L : Z.of_nat 5 > 2) by lia.
  destruct (H L) as [Hlen _]. vm_compute in Hlen. discriminate.
Qed.

(* ===================================================================== *)
(** ** [save_state] *)
(* ===================================================================== *)

Lemma write_chunks_app (chunks : list str) (written : bytes) :
  write_chunks chunks written
  = (written ++ fst (write_chunks chunks []), snd (write_chunks chunks [])).
Proof.
  revert written; induction chunks as [|c rest IH]; intros written; simpl.
  - rewrite app_nil_r; reflexivity.
  - destruct (encode_utf8 c) as [b|]; [|rewrite app_nil_r; reflexivity].
    rewrite (IH (written ++ b)), (IH b). cbn [fst snd].
    rewrite app_assoc. reflexivity.
Qed.

Lemma write_chunks_ok (chunks : list str) (written : bytes) :
  snd (write_chunks chunks written) = true <-> Forall encodable chunks.
Proof.
  revert written; induction chunks as [|c rest IH]; intros written; simpl.
  - split; [constructor | reflexivity].
  - unfold encodable at 1.
    destruct (encode_utf8 c) as [b|] eqn:E.
    + rewrite IH. split; [|intros H; inversion H; assumption].
      intros H. constructor; [unfold encodable; congruence | assumption].
    + simpl. split; [discriminate|]. intros H. inversion H as [|? ? Hc _].
      unfold encodable in Hc. congruence.
Qed.

Lemma encode_utf8_app (s t : str) (b c : bytes) :
  encode_utf8 s = Some b -> encode_utf8 t = Some c ->
  encode_utf8 (s ++ t) = Some (b ++ c).
Proof.
  revert b; induction s as [|x s IH]; intros b; simpl.
  - intros [= <-] ->; reflexivity.
  - destruct (utf8_char x) as [bx|]; [|discriminate].
    destruct (encode_utf8 s) as [bs|]; [|discriminate].
    intros [= <-] Ht. rewrite (IH bs eq_refl Ht). cbn iota.
    rewrite app_assoc. reflexivity.
Qed.

(** When every chunk is written, the file holds the UTF-8 bytes of the
    whole JSON text. *)
Lemma write_chunks_whole (chunks : list str) :
  snd (write_chunks chunks []) = true ->
  encode_utf8 (List.concat chunks) = Some (fst (write_chunks chunks [])).
Proof.
  induction chunks as [|c rest IH]; simpl; [reflexivity|].
  destruct (encode_utf8 c) as [b|] eqn:E; [|discriminate].
  rewrite write_chunks_app. cbn [fst snd]. intros H.
  apply encode_utf8_app; auto.
Qed.

(** C3, as the code has it.  [save_state] writes in place.  When [mkdir]
    or [open] raises, the file is as before.  Once the file is open its old
    content is gone: whatever the file held before, it then holds the bytes
    [json.dump] got written, a prefix of the new record, cut short where the
    device stopped taking bytes.  When [save_state] returns without raising,
    the file holds the UTF-8 bytes of the complete JSON text of the new
    state. *)
Theorem save_state_writes_in_place
  (flt : fault) (state : list (str * str)) (before : disk) :
  let after := fst (save_state flt state before) in
  let res := snd (save_state flt state before) in
  let written := fst (write_chunks (json_dump_chunks state) []) in
  match flt with
  | MkdirFails | OpenFails => after = before /\ res = Raise OSError
  | NoFault => after = Some written
  | WriteFails n => after = Some (firstn n written)
  end
  /\ (res = Ok tt ->
      after = Some written
      /\ encode_utf8 (List.concat (json_dump_chunks state)) = Some written).
Proof.
  cbv zeta. unfold save_state.
  destruct (write_chunks (json_dump_chunks state) []) as [b ok] eqn:W.
  assert (Hb : b = fst (write_chunks (json_dump_chunks state) []))
    by (rewrite W; reflexivity).
  assert (Hok : ok = snd (write_chunks (json_dump_chunks state) []))
    by (rewrite W; reflexivity).
  cbn [fst snd].
  destruct flt as [| | |n]; cbn [fst snd].
  - split; [reflexivity|]. destruct ok; [|discriminate].
    intros _. split; [reflexivity|]. rewrite Hb.
    apply write_chunks_whole. symmetry; exact Hok.
  - split; [auto | discriminate].
  - split; [auto | discriminate].
  - destruct (n <? List.length b)%nat eqn:E; cbn [fst snd].
    + split; [reflexivity | discriminate].
    + apply Nat.ltb_ge in E. rewrite firstn_all2 by assumption.
      split; [reflexivity|]. destruct ok; [|discriminate].
      intros _. split; [reflexivity|]. rewrite Hb.
      apply write_chunks_whole. symmetry; exact Hok.
Qed.

(** C3 as the specification states it fails: the state file holds the
    record of a first run; the save of the second run is cut off before its
    first byte reaches the file.  The file is then empty: neither the old
    record nor the new one. *)
Lemma save_state_fault_loses_snapshot :
  let before := saved Sample.first_run in
  let state := state_out Sample.second_report in
  let after := fst (save_state (WriteFails 0) state before) in
  let whole := fst (save_state NoFault state before) in
  before <> None
  /\ field state (lit "last_text") = Some (lit "hello there")
  /\ after = Some []
  /\ snd (save_state (WriteFails 0) state before) = Raise OSError
  /\ ~ Spec.all_or_nothing before after whole.
Proof.
  cbv zeta. split; [vm_compute; discriminate|].
  split; [vm_compute; reflexivity|].
  split; [vm_compute; reflexivity|]. split; [vm_compute; reflexivity|].
  vm_compute. intros [H|H]; discriminate.
Qed.

(* ===================================================================== *)
(** ** The run *)
(* ===================================================================== *)

Lemma ne_str_false (v : pyval) (s : str) : ne_str v s = false <-> v = PStr s.
Proof.
  destruct v; simpl; try (split; discriminate).
  rewrite negb_false_iff, str_eqb_eq. split; [intros ->; reflexivity|].
  intros [= ->]; reflexivity.
Qed.

Lemma ne_str_same (s : str) : ne_str (PStr s) s = false.
Proof. apply ne_str_false; reflexivity. Qed.

Lemma statuses_differ : CHANGE_DETECTED <> NO_CHANGE_DETECTED.
Proof. discriminate. Qed.

Lemma slice_to_zero (s : str) : slice_to s 0 = [].
Proof. reflexivity. Qed.


Lemma ishex_utf8 (c : char) : Sha256.ishex c = true -> utf8_char c <> None.
Proof.
  intros H.
  assert (E : encodable [c]).
  { apply ishex_encodable. simpl. rewrite H. reflexivity. }
  apply encodable_Forall in E. inversion E; assumption.
Qed.

Lemma json_escape_encodable (c : char) :
  utf8_char c <> None ->
  Forall (fun x => utf8_char x <> None) (json_escape c).
Proof.
  intros Hc. unfold json_escape.
  repeat match goal with
         | |- context [if ?b then _ else _] => destruct b
         end;
    repeat constructor;
    first [ assumption | apply ishex_utf8, hexchar_ishex | discriminate ].
Qed.

Lemma json_string_encodable (s : str) :
  encodable s -> encodable (json_string s).
Proof.
  rewrite !encodable_Forall. intros H. unfold json_string.
  rewrite !Forall_app. split; [repeat constructor; discriminate|].
  split; [|repeat constructor; discriminate].
  induction H as [|c s Hc _ IH]; [constructor|].
  cbn [flat_map]. apply Forall_app. split; [|exact IH].
  apply json_escape_encodable; assumption.
Qed.

Lemma state_chunks_encodable (url now h title text : str) :
  Forall encodable (json_dump_chunks (state_of url now h title text))
  <-> encodable (json_string url) /\ encodable (json_string now)
      /\ encodable (json_string h) /\ encodable (json_string title)
      /\ encodable (json_string text).
Proof.
  split.
  - intros H. rewrite Forall_forall in H.
    repeat split; apply H; simpl; tauto.
  - intros (Hu & Hn & Hh & Ht & Hx).
    cbn [state_of json_dump_chunks json_items app].
    repeat constructor; first [ assumption | vm_compute; discriminate ].
Qed.

Lemma save_state_ok (state : list (str * str)) :
  snd (save_state NoFault state None) = Ok tt
  <-> Forall encodable (json_dump_chunks state).
Proof.
  rewrite <- (write_chunks_ok _ []). unfold save_state.
  destruct (write_chunks (json_dump_chunks state) []) as [b [|]];
    cbn [fst snd]; split; congruence.
Qed.

Lemma save_state_saved (state : list (str * str)) :
  exists b, fst (save_state NoFault state None) = Some b.
Proof.
  unfold save_state.
  destruct (write_chunks (json_dump_chunks state) []) as [b ok].
  exists b. reflexivity.
Qed.

(** The three constant files can always be encoded. *)
Lemma constant_files_written :
  write_static_assets = Ok tt /\ write_robots = Ok tt /\ write_sitemap = Ok tt.
Proof. repeat split; vm_compute; reflexivity. Qed.

Lemma write_pages_index (cfg : config) (page_title : str) (r : report) :
  write_pages cfg page_title r
  = write_text (render_html (site_title cfg) (target_url cfg) page_title
                  (status r) (run_at r) (prev_hash r) (cur_hash r)
                  (diff_text r) (snippet r)).
Proof.
  unfold write_pages. destruct constant_files_written as (-> & -> & ->).
  reflexivity.
Qed.

Lemma write_text_ok (page : list piece) :
  write_text page = Ok tt <-> forallb piece_encodable page = true.
Proof.
  unfold write_text. destruct (forallb piece_encodable page);
    split; congruence.
Qed.


Lemma text_encodable (s : str) :
  piece_encodable (Text s) = true <-> encodable s.
Proof.
  unfold encodable. cbn [piece_encodable].
  destruct (encode_utf8 s); split; congruence.
Qed.

Lemma shown_encodable (v : pyval) :
  piece_encodable (shown v) = true <-> forall s, v = PStr s -> encodable s.
Proof.
  destruct v; cbn [shown]; rewrite ?text_encodable;
    try (split; [intros _ s0 E; discriminate E | reflexivity]).
  split; [intros H s0 [= <-]; exact H | intros H; apply H; reflexivity].
Qed.

Lemma page_template_encodable :
  forallb (fun p => piece_encodable (Text p)) PAGE_TEMPLATE = true.
Proof. vm_compute. reflexivity. Qed.

Lemma weave_encodable (parts : list str) (values : list piece) :
  List.length parts = S (List.length values) ->
  forallb (fun p => piece_encodable (Text p)) parts = true ->
  forallb piece_encodable (weave parts values)
  = forallb piece_encodable values.
Proof.
  revert values; induction parts as [|p parts IH]; intros values Hl Hp;
    [discriminate Hl|].
  cbn [forallb] in Hp. apply andb_true_iff in Hp. destruct Hp as [Hp Hps].
  destruct values as [|v values].
  - destruct parts; [|discriminate Hl]. cbn [weave forallb].
    rewrite Hp. reflexivity.
  - cbn [weave forallb]. rewrite Hp. cbn [andb]. f_equal.
    apply IH; [|exact Hps]. cbn [List.length] in Hl. lia.
Qed.

(** [index.html] is written exactly when the values put into the page can
    be encoded. *)
Lemma render_html_written (site_title : pyval)
  (target_url page_title status run_at : str) (prev_hash : pyval)
  (cur_hash diff_text snippet : str) :
  write_text (render_html site_title target_url page_title status run_at
                prev_hash cur_hash diff_text snippet) = Ok tt
  <-> page_values_encodable site_title target_url page_title status run_at
        prev_hash cur_hash diff_text snippet.
Proof.
  rewrite write_text_ok. unfold render_html. cbv zeta.
  rewrite weave_encodable by (reflexivity || exact page_template_encodable).
  unfold page_values_encodable. cbn [forallb].
  rewrite !andb_true_iff, !text_encodable, !shown_encodable.
  assert (Hb : encodable (if str_eqb status (lit "No change detected")
                          then lit "ok" else lit "changed"))
    by (destruct (str_eqb _ _); vm_compute; discriminate).
  assert (Ht : encodable (match page_title with
                          | [] => lit "(no title found)"
                          | _ => page_title
                          end) <-> encodable page_title).
  { destruct page_title; [|reflexivity].
    split; intros _; vm_compute; discriminate. }
  assert (Hp : piece_encodable (if truthy prev_hash then shown prev_hash
                                else Text (lit "-")) = true
               <-> forall s, prev_hash = PStr s -> encodable s).
  { destruct (truthy prev_hash) eqn:E; [apply shown_encodable|].
    split; [|reflexivity]. intros _ s0 ->.
    destruct s0; [vm_compute|]; discriminate. }
  rewrite Ht, Hp. intuition auto.
Qed.

Section Runs.

Variable unified_diff : list str -> list str -> list str.
Variable py : python.

Lemma diff_of_total (prev_text : pyval) (cur : str) :
  truthy prev_text = false \/ (exists p, prev_text = PStr p) ->
  exists dt, diff_of unified_diff py prev_text cur = Ok dt.
Proof.
  unfold diff_of. intros [H | [p ->]].
  - rewrite H; eauto.
  - destruct (truthy (PStr p)); eauto.
Qed.

Lemma diff_of_absent (prev_text : pyval) (cur : str) :
  truthy prev_text = false -> diff_of unified_diff py prev_text cur = Ok NO_PREVIOUS.
Proof. unfold diff_of. intros ->; reflexivity. Qed.

Lemma diff_of_text (p cur : str) :
  p <> [] ->
  diff_of unified_diff py (PStr p) cur
  = Ok (build_diff unified_diff (slice_to p 5000) (slice_to cur 5000) 220).
Proof. unfold diff_of. destruct p; [contradiction | reflexivity]. Qed.

(** [compare] on a dict and a fetched page, step by step. *)
Lemma compare_dict (cfg : config) (d : list (str * pyval))
  (title text now : str) :
  compare unified_diff py cfg (PDict d) (Page title text) now
  = let cur := slice_to (normalize_text text) (max_chars cfg) in
    let ph := dict_get d (lit "last_hash") (PStr []) in
    match sha256 cur with
    | None => Raise UnicodeEncodeError
    | Some h =>
        dt <- diff_of unified_diff py (dict_get d (lit "last_text") (PStr [])) cur ;;
        Ok (Some {|
          status := if ne_str ph [] && ne_str ph h
                    then CHANGE_DETECTED else NO_CHANGE_DETECTED;
          run_at := now;
          prev_hash := ph;
          cur_hash := h;
          snippet := slice_to cur 500;
          diff_text := dt;
          state_out := state_of (target_url cfg) now h title cur
        |})
    end.
Proof. reflexivity. Qed.

(** What a computed report says about the run it comes from. *)
Lemma compare_report (cfg : config) (state : pyval) (pg : page)
  (now : str) (r : report) :
  compare unified_diff py cfg state pg now = Ok (Some r) ->
  exists d title text,
    state = PDict d /\ pg = Page title text
    /\ let cur := slice_to (normalize_text text) (max_chars cfg) in
       sha256 cur = Some (cur_hash r)
       /\ diff_of unified_diff py (dict_get d (lit "last_text") (PStr [])) cur
          = Ok (diff_text r)
       /\ prev_hash r = dict_get d (lit "last_hash") (PStr [])
       /\ status r = (if ne_str (prev_hash r) [] && ne_str (prev_hash r) (cur_hash r)
                      then CHANGE_DETECTED else NO_CHANGE_DETECTED)
       /\ run_at r = now
       /\ state_out r = state_of (target_url cfg) now (cur_hash r) title cur.
Proof.
  destruct state as [| | | | | |d]; try discriminate.
  destruct pg as [|title text]; [discriminate|].
  rewrite compare_dict. cbv zeta.
  destruct (sha256 _) as [h|] eqn:Eh; [|discriminate].
  destruct (diff_of _ _ _) as [dt|e] eqn:Ed; [|discriminate].
  cbn [bind]. intros [= <-]. exists d, title, text. cbn.
  repeat split; auto.
Qed.

Lemma main_computed (cfg : config) (observed : state_file) (pg : page)
  (now : str) (r : report) :
  computed (main unified_diff py cfg observed pg now) = Some r
  <-> compare unified_diff py cfg (load_state observed) pg now = Ok (Some r).
Proof.
  unfold main.
  destruct (compare _ _ _ _ _ _) as [[r'|]|e]; cbn -[save_state write_pages];
    try (split; discriminate).
  destruct (write_pages cfg (title_of pg) r') as [u|e];
    cbn -[save_state]; [|split; congruence].
  destruct (save_state NoFault (state_out r') None) as [dk [u'|e]]; cbn;
    split; congruence.
Qed.

(** A run returns 0 exactly when it computed its report, wrote the pages
    and saved the state. *)
Lemma main_exit0 (cfg : config) (observed : state_file) (pg : page)
  (now : str) (r : report) :
  ended (main unified_diff py cfg observed pg now) = Exit0 r
  <-> compare unified_diff py cfg (load_state observed) pg now = Ok (Some r)
      /\ write_pages cfg (title_of pg) r = Ok tt
      /\ snd (save_state NoFault (state_out r) None) = Ok tt.
Proof.
  unfold main.
  destruct (compare _ _ _ _ _ _) as [[r'|]|e]; cbn -[save_state write_pages];
    try (split; [discriminate | intros [? _]; discriminate]).
  destruct (write_pages cfg (title_of pg) r') as [[]|e] eqn:Ew;
    cbn -[save_state write_pages].
  - destruct (save_state NoFault (state_out r') None) as [dk [u|e]] eqn:Es;
      cbn -[save_state write_pages].
    + split.
      * intros [= <-]. rewrite Es. destruct u. auto.
      * intros [E _]. injection E as E. subst. reflexivity.
    + split; [discriminate|]. intros [E [_ H]]. injection E as E. subst.
      rewrite Es in H. discriminate.
  - split; [discriminate|]. intros [E [H _]]. injection E as E. subst.
    rewrite Ew in H. discriminate.
Qed.

End Runs.

Lemma save_state_complete (state : list (str * str)) :
  Forall encodable (json_dump_chunks state) ->
  exists b, save_state NoFault state None = (Some b, Ok tt)
            /\ encode_utf8 (List.concat (json_dump_chunks state)) = Some b.
Proof.
  intros H. apply (write_chunks_ok _ []) in H.
  pose proof (write_chunks_whole _ H) as Hw. unfold save_state.
  destruct (write_chunks (json_dump_chunks state) []) as [b ok].
  cbn [fst snd] in *. subst ok. exists b; auto.
Qed.



Lemma first_run_ends :
  Sample.first_run
  = Run (Exit0 Sample.first_report) (Some Sample.first_report)
        (saved Sample.first_run).
Proof. vm_compute. reflexivity. Qed.

Lemma second_run_ends :
  Sample.second_run
  = Run (Exit0 Sample.second_report) (Some Sample.second_report)
        (saved Sample.second_run).
Proof. vm_compute. reflexivity. Qed.

(* ===================================================================== *)
(** ** Classification *)
(* ===================================================================== *)

Lemma previous_digest_present (r : report) :
  previous_digest r <> None <-> ne_str (prev_hash r) [] = true.
Proof.
  unfold previous_digest. destruct (ne_str (prev_hash r) []);
    split; congruence.
Qed.

Lemma previous_digest_differs (r : report) :
  previous_digest r <> None ->
  (previous_digest r <> Some (PStr (cur_hash r))
   <-> ne_str (prev_hash r) (cur_hash r) = true).
Proof.
  intros Hp. apply previous_digest_present in Hp.
  unfold previous_digest. rewrite Hp.
  destruct (ne_str (prev_hash r) (cur_hash r)) eqn:E.
  - split; [reflexivity|]. intros _ [= H].
    apply ne_str_false in H. congruence.
  - apply ne_str_false in E. rewrite E. split; congruence.
Qed.

Lemma has_snapshot_false (observed : state_file) :
  has_snapshot observed = false <-> load_state observed = PDict [].
Proof.
  unfold has_snapshot.
  destruct (load_state observed) as [| | | | | |[|kv d]];
    split; congruence.
Qed.

(** C1, as the code has it.  A run that computed a report has one of two
    statuses.  It is "Change detected" exactly when a previous hash is
    stored (not the empty string) and differs from the current hash, and
    "No change detected" otherwise; a first run, with no prior snapshot,
    has no status of its own and reports "No change detected".  The diff
    text does not depend on the hashes: it is the notice "(no previous
    snapshot yet ...)" when the stored text is absent or empty, as on a
    first run, and otherwise [build_diff] of the first 5000 characters of
    the stored and of the current text, cut at 220 lines. *)
Theorem status_follows_stored_hash
  (unified_diff : list str -> list str -> list str) (py : python)
  (cfg : config) (observed : state_file) (pg : page) (now : str)
  (r : report) :
  computed (main unified_diff py cfg observed pg now) = Some r ->
  (status r = CHANGE_DETECTED \/ status r = NO_CHANGE_DETECTED)
  /\ (status r = CHANGE_DETECTED
      <-> previous_digest r <> None
          /\ previous_digest r <> Some (PStr (cur_hash r)))
  /\ (reported r = Spec.Changed <-> status r = CHANGE_DETECTED)
  /\ reported r <> Spec.Unseen
  /\ (has_snapshot observed = false ->
      status r = NO_CHANGE_DETECTED /\ diff_text r = NO_PREVIOUS)
  /\ exists d title text,
       load_state observed = PDict d /\ pg = Page title text
       /\ let prev_text := dict_get d (lit "last_text") (PStr []) in
          let cur := slice_to (normalize_text text) (max_chars cfg) in
          (truthy prev_text = false -> diff_text r = NO_PREVIOUS)
          /\ (forall p, prev_text = PStr p -> p <> [] ->
              diff_text r
              = build_diff unified_diff (slice_to p 5000) (slice_to cur 5000) 220).
Proof.
  intros H. apply main_computed, compare_report in H.
  destruct H as (d & title & text & Hd & Hpg & _ & Hdiff & Hph & Hst & _ & _).
  assert (Hiff : status r = CHANGE_DETECTED
                 <-> ne_str (prev_hash r) [] = true
                     /\ ne_str (prev_hash r) (cur_hash r) = true).
  { rewrite Hst, <- andb_true_iff.
    destruct (ne_str (prev_hash r) [] && ne_str (prev_hash r) (cur_hash r));
      split; try reflexivity; try discriminate. }
  split; [|split; [|split; [|split; [|split]]]].
  - rewrite Hst.
    destruct (ne_str (prev_hash r) [] && ne_str (prev_hash r) (cur_hash r)); auto.
  - rewrite Hiff. split.
    + intros [H1 H2]. apply previous_digest_present in H1.
      split; [assumption|]. apply previous_digest_differs; assumption.
    + intros [H1 H2]. split; [apply previous_digest_present; assumption|].
      apply previous_digest_differs; assumption.
  - unfold reported. destruct (str_eqb (status r) CHANGE_DETECTED) eqn:E.
    + apply str_eqb_eq in E. split; auto.
    + apply str_eqb_neq in E. split; [discriminate | contradiction].
  - unfold reported. destruct (str_eqb (status r) CHANGE_DETECTED); discriminate.
  - intros Hno. apply has_snapshot_false in Hno.
    rewrite Hno in Hd. injection Hd as <-.
    cbn [dict_get] in Hph, Hdiff. split.
    + rewrite Hst, Hph. reflexivity.
    + rewrite diff_of_absent in Hdiff by reflexivity. congruence.
  - exists d, title, text. split; [assumption|]. split; [assumption|].
    cbv zeta. split.
    + intros Hf. rewrite diff_of_absent in Hdiff by assumption. congruence.
    + intros p Hp Hne. rewrite Hp, diff_of_text in Hdiff by assumption.
      congruence.
Qed.

Lemma status_follows_stored_hash_witness :
  computed Sample.second_run = Some Sample.second_report
  /\ (status Sample.second_report = CHANGE_DETECTED
      <-> previous_digest Sample.second_report <> None
          /\ previous_digest Sample.second_report
             <> Some (PStr (cur_hash Sample.second_report))).
Proof.
  assert (H : computed Sample.second_run = Some Sample.second_report)
    by (vm_compute; reflexivity).
  split; [exact H|].
  exact (proj1 (proj2 (status_follows_stored_hash
                         Difflib.unified_diff Sample.py Sample.cfg
                         Sample.after_first_run Sample.hello_there
                         Sample.tuesday Sample.second_report H))).
Defined.

(** C1 as the specification states it fails on a first run: there is no
    state file, so no previous digest and no prior snapshot; the run
    reports "No change detected", the status of an unchanged page, and its
    diff text is the notice, which is not empty. *)
Lemma first_run_is_reported_unchanged :
  computed Sample.first_run = Some Sample.first_report
  /\ has_snapshot NoFile = false
  /\ previous_digest Sample.first_report = None
  /\ reported Sample.first_report = Spec.Unchanged
  /\ diff_text Sample.first_report = NO_PREVIOUS
  /\ ~ Spec.classification_invariant
         (has_snapshot NoFile)
         (previous_digest Sample.first_report)
         (Some (PStr (cur_hash Sample.first_report)))
         (reported Sample.first_report)
         (diff_text Sample.first_report).
Proof.
  split; [vm_compute; reflexivity|].
  repeat (split; [reflexivity|]).
  intros (_ & _ & _ & Hdiff).
  assert (E : diff_text Sample.first_report = [])
    by (apply Hdiff; left; reflexivity).
  discriminate E.
Qed.

(* ===================================================================== *)
(** ** The stored snapshot *)
(* ===================================================================== *)

(** C4, as the code has it.  The text is normalized first, in
    [fetch_page_text], and cut afterwards, in [main], with the slice
    [[:max_chars]]; the digest is taken of the cut text.  For every page
    text, the stored text is the [max_chars] prefix of the normalized text
    and the stored hash is its fingerprint. *)
Theorem stored_text_is_cut_after_normalizing
  (unified_diff : list str -> list str -> list str) (py : python)
  (cfg : config) (observed : state_file) (title text now : str)
  (r : report) :
  computed (main unified_diff py cfg observed (Page title text) now) = Some r ->
  let cur := slice_to (normalize_text text) (max_chars cfg) in
  field (state_out r) (lit "last_text") = Some cur
  /\ sha256 cur = Some (cur_hash r)
  /\ field (state_out r) (lit "last_hash") = Some (cur_hash r)
  /\ snippet r = slice_to cur 500.
Proof.
  intros H. apply main_computed in H.
  pose proof H as H'. apply compare_report in H'.
  destruct H' as (d & title' & text' & Hd & [= <- <-] & Hs & _ & _ & _ & _ & Hso).
  cbv zeta. rewrite Hso. repeat split; try assumption.
  rewrite Hd, compare_dict in H. cbv zeta in H. rewrite Hs in H.
  destruct (diff_of _ _ _) as [dt|e]; [|discriminate].
  cbn [bind] in H. injection H as <-. reflexivity.
Qed.

Lemma stored_text_is_cut_after_normalizing_witness :
  computed (main Difflib.unified_diff Sample.py Sample.cfg3 NoFile
                 (Page (lit "Example") (lit "a  b")) Sample.monday)
  = Some {|
      status := NO_CHANGE_DETECTED;
      run_at := Sample.monday;
      prev_hash := PStr [];
      cur_hash :=
        lit "c8687a08aa5d6ed2044328fa6a697ab8e96dc34291e8c2034ae8c38e6fcc6d65";
      snippet := lit "a b";
      diff_text := NO_PREVIOUS;
      state_out :=
        state_of (lit "https://example.org/") Sample.monday
          (lit "c8687a08aa5d6ed2044328fa6a697ab8e96dc34291e8c2034ae8c38e6fcc6d65")
          (lit "Example") (lit "a b")
    |}
  /\ sha256 (slice_to (normalize_text (lit "a  b")) 3)
     = Some (lit "c8687a08aa5d6ed2044328fa6a697ab8e96dc34291e8c2034ae8c38e6fcc6d65").
Proof.
  assert (H : computed (main Difflib.unified_diff Sample.py Sample.cfg3 NoFile
                             (Page (lit "Example") (lit "a  b")) Sample.monday)
              = Some {|
                  status := NO_CHANGE_DETECTED;
                  run_at := Sample.monday;
                  prev_hash := PStr [];
                  cur_hash :=
                    lit "c8687a08aa5d6ed2044328fa6a697ab8e96dc34291e8c2034ae8c38e6fcc6d65";
                  snippet := lit "a b";
                  diff_text := NO_PREVIOUS;
                  state_out :=
                    state_of (lit "https://example.org/") Sample.monday
                      (lit "c8687a08aa5d6ed2044328fa6a697ab8e96dc34291e8c2034ae8c38e6fcc6d65")
                      (lit "Example") (lit "a b")
                |})
    by (vm_compute; reflexivity).
  split; [exact H|].
  exact (proj1 (proj2 (stored_text_is_cut_after_normalizing
                         Difflib.unified_diff Sample.py Sample.cfg3 NoFile
                         (lit "Example") (lit "a  b") Sample.monday _ H))).
Defined.

(** C4 as the specification states it fails: with [max_text_chars] 3 and
    the page text [a], two spaces, [b], the run stores ["a b"], the first
    three characters of the normalized text; normalizing the first three
    characters of the raw text gives ["a"]. *)
Lemma stored_text_is_not_normalized_prefix :
  let x := main Difflib.unified_diff Sample.py Sample.cfg3 NoFile Sample.a_b
                Sample.monday in
  Sample.stored x = Some (Some (lit "a b"))
  /\ Spec.truncate_then_normalize (lit "a  b") 3 = lit "a"
  /\ Sample.stored x <> Some (Some (Spec.truncate_then_normalize (lit "a  b") 3)).
Proof.
  cbv zeta. split; [vm_compute; reflexivity|]. split; [reflexivity|].
  vm_compute. discriminate.
Qed.

(** C7. In the state a run builds for saving, the stored hash is the
    fingerprint of the very text stored with it. *)
Theorem stored_hash_is_fingerprint_of_stored_text
  (unified_diff : list str -> list str -> list str) (py : python)
  (cfg : config) (observed : state_file) (pg : page) (now : str)
  (r : report) :
  computed (main unified_diff py cfg observed pg now) = Some r ->
  exists t h,
    field (state_out r) (lit "last_text") = Some t
    /\ field (state_out r) (lit "last_hash") = Some h
    /\ sha256 t = Some h.
Proof.
  intros H. apply main_computed, compare_report in H.
  destruct H as (d & title & text & _ & _ & Hs & _ & _ & _ & _ & Hso).
  rewrite Hso. eexists _, _.
  split; [reflexivity|]. split; [reflexivity | exact Hs].
Qed.

Lemma stored_hash_is_fingerprint_of_stored_text_witness :
  computed Sample.second_run = Some Sample.second_report
  /\ exists t h,
       field (state_out Sample.second_report) (lit "last_text") = Some t
       /\ field (state_out Sample.second_report) (lit "last_hash") = Some h
       /\ sha256 t = Some h.
Proof.
  assert (H : computed Sample.second_run = Some Sample.second_report)
    by (vm_compute; reflexivity).
  split; [exact H|].
  exact (stored_hash_is_fingerprint_of_stored_text
           Difflib.unified_diff Sample.py Sample.cfg Sample.after_first_run
           Sample.hello_there Sample.tuesday Sample.second_report H).
Defined.

(** The report of a run that loads the state of the run before it on the
    same page. *)
Lemma repeat_run_report
  (unified_diff : list str -> list str -> list str) (py : python)
  (cfg : config) (observed : state_file) (pg : page) (now now' : str)
  (r : report) :
  computed (main unified_diff py cfg observed pg now) = Some r ->
  exists r',
    computed (main unified_diff py cfg (Json (as_loaded (state_out r))) pg now')
    = Some r'
    /\ status r' = NO_CHANGE_DETECTED
    /\ reported r' = Spec.Unchanged
    /\ previous_digest r' = Some (PStr (cur_hash r'))
    /\ cur_hash r' = cur_hash r
    /\ (ended (main unified_diff py cfg observed pg now) = Exit0 r ->
        encodable now' ->
        encodable (diff_text r') ->
        ended (main unified_diff py cfg (Json (as_loaded (state_out r))) pg now')
        = Exit0 r').
Proof.
  intros H. apply main_computed, compare_report in H.
  destruct H as (d & title & text & _ & -> & Hs & _ & _ & _ & _ & Hso).
  cbv zeta in Hs, Hso. rewrite Hso in *.
  set (cur := slice_to (normalize_text text) (max_chars cfg)) in *.
  set (h := cur_hash r) in *.
  assert (Hdt : exists dt, diff_of unified_diff py (PStr cur) cur = Ok dt)
    by (apply diff_of_total; right; eauto).
  destruct Hdt as [dt Hdt].
  set (st := Json (as_loaded (state_of (target_url cfg) now h title cur))).
  assert (Hcmp : compare unified_diff py cfg (load_state st) (Page title text) now'
                 = Ok (Some {|
                     status := NO_CHANGE_DETECTED;
                     run_at := now';
                     prev_hash := PStr h;
                     cur_hash := h;
                     snippet := slice_to cur 500;
                     diff_text := dt;
                     state_out := state_of (target_url cfg) now' h title cur
                   |})).
  { change (load_state st)
      with (PDict (map (fun kv => (fst kv, PStr (snd kv)))
                       (state_of (target_url cfg) now h title cur))).
    rewrite compare_dict. cbv zeta. fold cur. rewrite Hs.
    change (dict_get _ (lit "last_text") (PStr [])) with (PStr cur).
    change (dict_get _ (lit "last_hash") (PStr [])) with (PStr h).
    rewrite Hdt, ne_str_same, andb_false_r. reflexivity. }
  eexists. split; [apply main_computed; exact Hcmp|].
  cbn [status cur_hash prev_hash].
  split; [reflexivity|]. split; [reflexivity|]. split; [|split; [reflexivity|]].
  - unfold previous_digest. cbn [prev_hash cur_hash].
    destruct (ne_str (PStr h) []) eqn:E; [reflexivity|].
    apply ne_str_false in E. injection E as E.
    apply sha256_digest_shape in Hs. rewrite E in Hs.
    destruct Hs as [Hlen _]. discriminate Hlen.
  - intros Hend Hnow Hdiff. cbn [diff_text] in Hdiff.
    apply main_exit0 in Hend. destruct Hend as (_ & Hpage & Hsave).
    rewrite write_pages_index in Hpage. apply render_html_written in Hpage.
    destruct Hpage as (Hst & Hurl & Hti & _ & _ & _ & Hch & _ & _).
    fold h in Hch. cbn [title_of] in Hti.
    rewrite Hso in Hsave.
    apply save_state_ok, state_chunks_encodable in Hsave.
    destruct Hsave as (Hu & _ & Hh & Ht & Hx).
    apply main_exit0. split; [exact Hcmp|]. split.
    + rewrite write_pages_index. apply render_html_written.
      cbn [status run_at prev_hash cur_hash diff_text snippet title_of].
      repeat split; try assumption.
      * vm_compute. discriminate.
      * intros s0 [= <-]. exact Hch.
      * apply slice_to_encodable. exact (sha256_encodable _ _ Hs).
    + cbn [state_out]. apply save_state_ok, state_chunks_encodable.
      repeat split; try assumption. apply json_string_encodable, Hnow.
Qed.

(** C9. When a run computed a report, a second run on the same page with
    the state of the first as its previous state computes a report as well,
    with the same hash, and reports "No change detected": the stored
    previous hash is present and equals the current hash.  When the first
    run moreover returned 0, the second returns 0 too, if its time stamp
    and the diff text it puts into the page can be encoded; the diff of
    CPython for a text against itself is empty. *)
Theorem second_run_on_same_text_is_unchanged
  (unified_diff : list str -> list str -> list str) (py : python)
  (cfg : config) (observed : state_file) (pg : page) (now now' : str)
  (r : report) :
  computed (main unified_diff py cfg observed pg now) = Some r ->
  exists r',
    computed (main unified_diff py cfg (Json (as_loaded (state_out r))) pg now')
    = Some r'
    /\ status r' = NO_CHANGE_DETECTED
    /\ reported r' = Spec.Unchanged
    /\ previous_digest r' = Some (PStr (cur_hash r'))
    /\ cur_hash r' = cur_hash r
    /\ (ended (main unified_diff py cfg observed pg now) = Exit0 r ->
        encodable now' ->
        encodable (diff_text r') ->
        ended (main unified_diff py cfg (Json (as_loaded (state_out r))) pg now')
        = Exit0 r').
Proof.
  exact (repeat_run_report unified_diff py cfg observed pg now now' r).
Qed.

Lemma second_run_on_same_text_is_unchanged_witness :
  computed Sample.first_run = Some Sample.first_report
  /\ exists r',
       computed Sample.repeat_run = Some r'
       /\ status r' = NO_CHANGE_DETECTED
       /\ reported r' = Spec.Unchanged
       /\ previous_digest r' = Some (PStr (cur_hash r'))
       /\ cur_hash r' = cur_hash Sample.first_report.
Proof.
  assert (H : computed Sample.first_run = Some Sample.first_report)
    by (vm_compute; reflexivity).
  split; [exact H|].
  destruct (second_run_on_same_text_is_unchanged
              Difflib.unified_diff Sample.py Sample.cfg NoFile Sample.hello_world
              Sample.monday Sample.tuesday Sample.first_report H)
    as (r' & H1 & H2 & H3 & H4 & H5 & _).
  exists r'. repeat split; assumption.
Defined.

(* ===================================================================== *)
(** ** Limits and damaged state *)
(* ===================================================================== *)

(** What the page and the state file need: a diff text that can be
    encoded. *)

















(** Line 221 on a limit that is no integer: a float is cut towards zero,
    and what is no number raises [TypeError], [ValueError] or
    [OverflowError] before the state is loaded. *)
Lemma settings_raises (int_of_str : str -> option Z)
  (cfg : list (str * pyval)) (v : pyval) (e : exn) :
  dict_find cfg (lit "max_text_chars") = Some v ->
  int_ int_of_str v = Raise e ->
  settings int_of_str cfg = Raise e.
Proof. intros Hv He. unfold settings. rewrite Hv, He. reflexivity. Qed.

Example int_of_values (int_of_str : str -> option Z) :
  int_ int_of_str PNone = Raise TypeError
  /\ int_ int_of_str (PList []) = Raise TypeError
  /\ int_ int_of_str (PFloat S754_nan) = Raise ValueError
  /\ int_ int_of_str (PFloat (S754_infinity false)) = Raise OverflowError
  /\ int_ int_of_str (PFloat (S754_finite false 5 (-1))) = Ok 2
  /\ int_ int_of_str (PFloat (S754_finite true 5 (-1))) = Ok (-2)
  /\ int_ int_of_str (PFloat (S754_finite false 5 2)) = Ok 20
  /\ int_ int_of_str (PBool true) = Ok 1.
Proof. repeat split. Qed.

(** C6, as the code has it.  When the state file is missing, when reading
    or parsing it raises, or when it holds a falsy JSON value, [load_state]
    returns the empty dict and raises nothing; the run that follows, if its
    page text can be encoded, reports "No change detected", the code's
    report of a first run, with the empty previous hash and the notice "(no
    previous snapshot yet ...)" as diff text. *)
Theorem load_state_recovers_from_unreadable_file
  (unified_diff : list str -> list str -> list str) (py : python)
  (cfg : config) (observed : state_file) (title text now : str) :
  (observed = NoFile \/ observed = Unreadable
   \/ exists v, observed = Json v /\ truthy v = false) ->
  encodable text ->
  load_state observed = PDict []
  /\ has_snapshot observed = false
  /\ exists r,
       computed (main unified_diff py cfg observed (Page title text) now) = Some r
       /\ status r = NO_CHANGE_DETECTED
       /\ prev_hash r = PStr []
       /\ diff_text r = NO_PREVIOUS.
Proof.
  intros Hobs Hx.
  assert (Hload : load_state observed = PDict []).
  { destruct Hobs as [-> | [-> | [v [-> Hv]]]]; try reflexivity.
    cbn [load_state]. rewrite Hv. reflexivity. }
  split; [exact Hload|]. split; [apply has_snapshot_false, Hload|].
  set (cur := slice_to (normalize_text text) (max_chars cfg)).
  assert (Hcur : encodable cur)
    by (apply slice_to_encodable, normalize_text_encodable, Hx).
  destruct (sha256_some cur Hcur) as [bs [_ Hh]].
  eexists. split.
  - apply main_computed. rewrite Hload, compare_dict. cbv zeta.
    fold cur. rewrite Hh. cbn [dict_get].
    rewrite diff_of_absent by reflexivity. cbn [bind]. reflexivity.
  - cbn. auto.
Qed.

Lemma load_state_recovers_from_unreadable_file_witness :
  (Unreadable = NoFile \/ Unreadable = Unreadable
   \/ exists v, Unreadable = Json v /\ truthy v = false)
  /\ encodable (lit "hello   world")
  /\ load_state Unreadable = PDict []
  /\ exists r,
       computed (main Difflib.unified_diff Sample.py Sample.cfg Unreadable
                      Sample.hello_world Sample.monday) = Some r
       /\ status r = NO_CHANGE_DETECTED
       /\ prev_hash r = PStr []
       /\ diff_text r = NO_PREVIOUS.
Proof.
  assert (H1 : Unreadable = NoFile \/ Unreadable = Unreadable
               \/ exists v, Unreadable = Json v /\ truthy v = false)
    by (right; left; reflexivity).
  assert (H2 : encodable (lit "hello   world")) by (vm_compute; discriminate).
  split; [exact H1|]. split; [exact H2|].
  destruct (load_state_recovers_from_unreadable_file
              Difflib.unified_diff Sample.py Sample.cfg Unreadable
              (lit "Example") (lit "hello   world") Sample.monday H1 H2)
    as (Hl & _ & Hr).
  split; [exact Hl | exact Hr].
Defined.

(** C6 as the specification states it fails.  With no state file,
    [load_state] returns the empty dict, but the run that follows reports
    "No change detected", not Unseen.  With a state file that holds the
    JSON text [[1]], [load_state] returns that list, and [main] raises
    [AttributeError] at [state.get] and reports nothing. *)
Lemma damaged_state_is_not_reported_unseen :
  let x := Sample.first_run in
  let y := main Difflib.unified_diff Sample.py Sample.cfg Sample.list_file
                Sample.hello_world Sample.monday in
  load_state NoFile = PDict []
  /\ option_map reported (computed x) = Some Spec.Unchanged
  /\ ~ Spec.recovers_as_unseen (load_state NoFile)
                               (option_map reported (computed x))
  /\ load_state Sample.list_file = PList [PInt 1]
  /\ y = Run (Uncaught AttributeError) None None
  /\ ~ Spec.recovers_as_unseen (load_state Sample.list_file)
                               (option_map reported (computed y)).
Proof.
  cbv zeta. split; [reflexivity|]. split; [vm_compute; reflexivity|].
  split; [intros [_ H]; vm_compute in H; discriminate|].
  split; [reflexivity|]. split; [reflexivity|].
  intros [H _]. discriminate H.
Qed.

(* ===================================================================== *)
(** ** With the diff of CPython *)
(* ===================================================================== *)

(** Every line [unified_diff] yields begins with a space, [+], [-] or [@]. *)
Lemma unified_diff_line_heads (a b : list str) :
  Forall (fun l => exists c rest, l = c :: rest /\ In c [32; 43; 45; 64])
         (Difflib.unified_diff a b).
Proof.
  unfold Difflib.unified_diff.
  destruct (Difflib.get_grouped_opcodes a b 3) as [|g gs]; [constructor|].
  apply Forall_app. split.
  - repeat constructor; eexists _, _; (split; [reflexivity | simpl; tauto]).
  - apply Forall_flat_map, Forall_forall. intros g' _.
    unfold Difflib.group_lines.
    destruct g' as [|[[[[t f1] f2] f3] f4] g']; [constructor|].
    destruct (rev _) as [|[[[[t' l1] l2] l3] l4] rg]; [constructor|].
    constructor; [eexists _, _; (split; [reflexivity | simpl; tauto])|].
    apply Forall_flat_map, Forall_forall. intros [[[[tg i1] i2] j1] j2] _.
    unfold Difflib.opcode_lines.
    destruct tg; rewrite ?Forall_app, !Forall_map; repeat split;
      apply Forall_forall; intros l _; eexists _, _;
      (split; [reflexivity | simpl; tauto]).
Qed.

(** The truncation marker is no line of a diff. *)
Lemma marker_is_no_diff_line (a b : list str) :
  Forall (fun l => l <> DIFF_TRUNCATED) (Difflib.unified_diff a b).
Proof.
  eapply Forall_impl; [|apply unified_diff_line_heads].
  intros l (c & rest & -> & Hc) E. injection E as -> _.
  simpl in Hc. intuition discriminate.
Qed.

(** Two equal lines have no diff. *)
Lemma same_line_has_no_diff (t : str) : Difflib.unified_diff [t] [t] = [].
Proof.
  unfold Difflib.unified_diff, Difflib.get_grouped_opcodes,
    Difflib.get_opcodes, Difflib.get_matching_blocks.
  cbn [List.length Nat.add Nat.mul].
  unfold Difflib.blocks_loop at 1.
  unfold Difflib.find_longest_match. cbn [Nat.sub List.length].
  unfold Difflib.match_rows, Difflib.b2j, Difflib.popular.
  cbn [List.length Nat.leb andb nth Difflib.indices_from].
  rewrite str_eqb_refl. cbn. rewrite ?str_eqb_refl. reflexivity.
Qed.

Lemma islinebreak_isspace (c : char) :
  islinebreak c = true -> isspace c = true.
Proof.
  unfold islinebreak, isspace.
  rewrite !orb_true_iff, !andb_true_iff, !Z.leb_le, !Z.eqb_eq. lia.
Qed.

(** A normalized text holds no line boundary. *)
Lemma normalize_text_one_line (s : str) :
  Forall (fun c => islinebreak c = false) (normalize_text s).
Proof.
  rewrite normalize_text_join. apply join_Forall; [repeat constructor|].
  eapply Forall_impl; [|apply split_tokens].
  intros t [_ Ht]. eapply Forall_impl; [|exact Ht].
  intros c Hc. destruct (islinebreak c) eqn:E; [|reflexivity].
  apply islinebreak_isspace in E. congruence.
Qed.

Lemma splitlines_from_one_line (s line : str) :
  Forall (fun c => islinebreak c = false) s ->
  splitlines_from line s
  = match rev line ++ s with [] => [] | l => [l] end.
Proof.
  revert line; induction s as [|c s IH]; intros line H.
  - rewrite app_nil_r. cbn [splitlines_from].
    destruct line as [|d line]; [reflexivity|].
    destruct (rev (d :: line)) eqn:E; [|reflexivity].
    apply (f_equal (@List.length Z)) in E. rewrite length_rev in E.
    discriminate.
  - inversion H as [|? ? Hc Hs]; subst. cbn [splitlines_from].
    rewrite Hc, IH by assumption. cbn [rev]. rewrite <- app_assoc.
    reflexivity.
Qed.

Lemma splitlines_one_line (s : str) :
  Forall (fun c => islinebreak c = false) s -> s <> [] -> splitlines s = [s].
Proof.
  intros H Hne. unfold splitlines. rewrite splitlines_from_one_line by assumption.
  destruct s; [contradiction | reflexivity].
Qed.

(** With the diff of CPython, a run whose stored text is the current text,
    as after a run on the same page, has an empty diff text, unless the
    text is empty: then it has the notice of a first run. *)
Lemma unchanged_text_has_empty_diff (py : python) (cfg : config) (observed : state_file)
  (d : list (str * pyval)) (title text now : str) (r : report) :
  let cur := slice_to (normalize_text text) (max_chars cfg) in
  load_state observed = PDict d ->
  dict_get d (lit "last_text") (PStr []) = PStr cur ->
  computed (main Difflib.unified_diff py cfg observed (Page title text) now)
  = Some r ->
  diff_text r = match cur with [] => NO_PREVIOUS | _ => [] end.
Proof.
  intros cur Hd Hprev H.
  apply main_computed in H. rewrite Hd, compare_dict in H. cbv zeta in H.
  fold cur in H. rewrite Hprev in H.
  destruct (sha256 cur) as [h|]; [|discriminate].
  destruct cur as [|c cur'] eqn:Ecur.
  - rewrite diff_of_absent in H by reflexivity. cbn [bind] in H.
    injection H as <-. reflexivity.
  - rewrite diff_of_text in H by discriminate. cbn [bind] in H.
    injection H as <-. cbn [diff_text]. unfold build_diff.
    assert (Hone : Forall (fun x => islinebreak x = false)
                          (slice_to (c :: cur') 5000)).
    { apply slice_to_Forall. rewrite <- Ecur. subst cur.
      apply slice_to_Forall, normalize_text_one_line. }
    rewrite splitlines_one_line by (assumption || discriminate).
    rewrite same_line_has_no_diff. reflexivity.
Qed.

(** With the diff of CPython the second run puts nothing into the page
    that the first did not: when the first run returned 0, the second, at
    any time stamp that can be encoded, returns 0 as well. *)
Lemma repeat_run_returns_0 (py : python) (cfg : config)
  (observed : state_file) (pg : page) (now now' : str) (r : report) :
  ended (main Difflib.unified_diff py cfg observed pg now) = Exit0 r ->
  encodable now' ->
  exists r',
    ended (main Difflib.unified_diff py cfg (Json (as_loaded (state_out r)))
                pg now') = Exit0 r'
    /\ status r' = NO_CHANGE_DETECTED.
Proof.
  intros Hend Hnow.
  assert (H : computed (main Difflib.unified_diff py cfg observed pg now)
              = Some r)
    by (apply main_computed; apply main_exit0 in Hend; apply Hend).
  destruct (repeat_run_report _ py cfg observed pg now now' r H)
    as (r' & Hc & Hst & _ & _ & _ & Hret).
  exists r'. split; [|exact Hst]. apply Hret; [exact Hend | exact Hnow|].
  apply main_computed, compare_report in H.
  destruct H as (d & title & text & _ & -> & _ & _ & _ & _ & _ & Hso).
  cbv zeta in Hso. rewrite Hso in Hc.
  set (st := state_of (target_url cfg) now (cur_hash r) title
               (slice_to (normalize_text text) (max_chars cfg))) in *.
  rewrite (unchanged_text_has_empty_diff py cfg (Json (as_loaded st))
             (map (fun kv => (fst kv, PStr (snd kv))) st)
             title text now' r' eq_refl eq_refl Hc).
  destruct (slice_to _ _); vm_compute; discriminate.
Qed.

(** The notice follows the stored text, not the stored hash: after a run
    on a page without text, the next run finds a snapshot and a previous
    hash, reports "Change detected", and shows the notice of a first run. *)
Example notice_after_empty_page :
  let empty_page := Page (lit "Example") (lit "   ") in
  let x := main Difflib.unified_diff Sample.py Sample.cfg NoFile empty_page
                Sample.monday in
  let state := match computed x with
               | Some r => Json (as_loaded (state_out r))
               | None => NoFile
               end in
  let y := main Difflib.unified_diff Sample.py Sample.cfg state Sample.hello_world
                Sample.tuesday in
  Sample.stored x = Some (Some [])
  /\ has_snapshot state = true
  /\ option_map status (computed y) = Some CHANGE_DETECTED
  /\ option_map diff_text (computed y) = Some NO_PREVIOUS.
Proof. vm_compute. repeat split; reflexivity. Qed.


(* ===================================================================== *)
(** ** More on [normalize_text] *)
(* ===================================================================== *)

Lemma visible_app (s t : str) : visible (s ++ t) = visible s ++ visible t.
Proof. apply filter_app. Qed.

Lemma visible_token (t : str) :
  Forall (fun c => isspace c = false) t -> visible t = t.
Proof.
  induction 1 as [|c t Hc _ IH]; [reflexivity|].
  unfold visible in *. cbn [filter]. rewrite Hc. cbn [negb]. f_equal. exact IH.
Qed.

Lemma visible_split_from (s tok : str) :
  List.concat (split_from tok s) = rev tok ++ visible s.
Proof.
  revert tok; induction s as [|c s IH]; intros tok.
  - cbn [split_from visible filter]. rewrite app_nil_r.
    destruct tok; [reflexivity|]. cbn [List.concat]. apply app_nil_r.
  - cbn [split_from]. unfold visible. cbn [filter]. fold (visible s).
    destruct (isspace c); cbn [negb].
    + destruct tok as [|d tok]; [apply IH|].
      cbn [List.concat]. rewrite IH. reflexivity.
    + rewrite IH. cbn [rev]. rewrite <- app_assoc. reflexivity.
Qed.

Lemma visible_join (toks : list str) :
  Forall token toks -> visible (join (lit " ") toks) = List.concat toks.
Proof.
  induction toks as [|t toks IH]; intros H; [reflexivity|].
  inversion H as [|? ? [_ Ht] Htoks]; subst.
  destruct toks as [|t' toks'].
  - cbn [join List.concat]. rewrite app_nil_r. apply visible_token, Ht.
  - change (join (lit " ") (t :: t' :: toks'))
      with (t ++ [32] ++ join (lit " ") (t' :: toks')).
    rewrite !visible_app, visible_token, IH by assumption. reflexivity.
Qed.

Lemma visible_normalize_text (s : str) :
  visible (normalize_text s) = visible s.
Proof.
  rewrite normalize_text_join, visible_join by apply split_tokens.
  unfold split. rewrite visible_split_from. reflexivity.
Qed.

(** X2. Normalization keeps every character that is no white space, in its
    place among the others: it only removes and replaces white space. *)
Theorem normalize_text_keeps_visible (s : str) :
  visible (normalize_text s) = visible s.
Proof. exact (visible_normalize_text s). Qed.

(** X3. Two texts have the same normalization exactly when [split] cuts
    them into the same words: no difference in white space alone survives,
    and every other difference does. *)
Theorem normalize_text_eq_iff_same_words (s t : str) :
  normalize_text s = normalize_text t <-> split s = split t.
Proof.
  rewrite !normalize_text_join. split; [|intros ->; reflexivity].
  intros H. apply (f_equal split) in H.
  rewrite !split_join in H by apply split_tokens. exact H.
Qed.

Lemma join_length (x : str) (rest : list str) :
  (List.length (join (lit " ") (x :: rest))
   <= List.length x
      + match rest with [] => 0 | _ => 1 + List.length (join (lit " ") rest) end)%nat.
Proof.
  destruct rest as [|y rest]; cbn [join]; [lia|].
  rewrite !length_app. cbn [List.length lit map list_ascii_of_string]. lia.
Qed.

Lemma split_from_length (s tok : str) :
  (List.length (join (lit " ") (split_from tok s))
   <= List.length tok + List.length s)%nat.
Proof.
  revert tok; induction s as [|c s IH]; intros tok; cbn [split_from].
  - destruct tok; cbn [join List.length]; [lia|]. rewrite length_rev.
    cbn [List.length]. lia.
  - destruct (isspace c).
    + destruct tok as [|d tok].
      * specialize (IH []). unfold str, char in *.
        cbn [List.length] in *. lia.
      * pose proof (join_length (rev (d :: tok)) (split_from [] s)) as H.
        specialize (IH []). rewrite length_rev in H.
        cbn [List.length] in *.
        destruct (split_from [] s); unfold str, char in *;
          cbn [List.length] in *; lia.
    + specialize (IH (c :: tok)). unfold str, char in *.
      cbn [List.length] in *. lia.
Qed.

Lemma normalize_text_length (s : str) :
  (List.length (normalize_text s) <= List.length s)%nat.
Proof.
  rewrite normalize_text_join. unfold split.
  pose proof (split_from_length s []) as H. cbn [List.length] in H. lia.
Qed.

(** X4. Normalization never makes a text longer. *)
Theorem normalize_text_not_longer (s : str) :
  (List.length (normalize_text s) <= List.length s)%nat.
Proof. exact (normalize_text_length s). Qed.

Lemma visible_nil_iff (s : str) : visible s = [] <-> forallb isspace s = true.
Proof.
  induction s as [|c s IH]; [split; reflexivity|].
  unfold visible in *. cbn [filter forallb].
  destruct (isspace c); cbn [negb andb]; [exact IH|].
  split; discriminate.
Qed.

(** X5. The normalization of a text is empty exactly when the text holds
    nothing but white space; the empty text is such a text. *)
Theorem normalize_text_empty_iff (s : str) :
  normalize_text s = [] <-> forallb isspace s = true.
Proof.
  rewrite <- visible_nil_iff, <- visible_normalize_text. split.
  - intros ->. reflexivity.
  - intros H. rewrite normalize_text_join in *.
    pose proof (split_tokens s) as Ht.
    rewrite visible_join in H by assumption.
    destruct (split s) as [|t toks]; [reflexivity|].
    inversion Ht as [|? ? [Hne _] _]; subst.
    cbn [List.concat] in H. apply app_eq_nil in H. destruct H; contradiction.
Qed.

Lemma well_spaced_run (t rest : str) (after : bool) :
  t <> [] -> Forall (fun c => isspace c = false) t ->
  well_spaced after (t ++ rest) = well_spaced false rest.
Proof.
  intros Hne Ht. revert after. induction Ht as [|c t Hc Ht IH]; [contradiction|].
  intros after. cbn [app well_spaced]. rewrite Hc.
  destruct t as [|d t]; [reflexivity|]. apply IH. discriminate.
Qed.

Lemma well_spaced_join (toks : list str) :
  Forall token toks -> toks <> [] ->
  well_spaced true (join (lit " ") toks) = true.
Proof.
  induction toks as [|t toks IH]; intros H Hne; [contradiction|].
  inversion H as [|? ? [Hn Ht] Htoks]; subst.
  destruct toks as [|t' toks'].
  - cbn [join]. rewrite <- (app_nil_r t), well_spaced_run by assumption.
    reflexivity.
  - change (join (lit " ") (t :: t' :: toks'))
      with (t ++ 32 :: join (lit " ") (t' :: toks')).
    rewrite well_spaced_run by assumption.
    cbn [well_spaced]. rewrite isspace_space. cbn [negb andb].
    rewrite Z.eqb_refl. apply IH; [assumption | discriminate].
Qed.

(** The join of the words of a well spaced text is the text. *)
Lemma join_split_from_well_spaced (s tok : str) :
  well_spaced (match tok with [] => true | _ => false end) s = true ->
  join (lit " ") (split_from tok s) = rev tok ++ s.
Proof.
  revert tok; induction s as [|c s IH]; intros tok H.
  - destruct tok; [discriminate|]. cbn [split_from join].
    rewrite app_nil_r. reflexivity.
  - cbn [well_spaced] in H. cbn [split_from].
    destruct (isspace c) eqn:Ec.
    + apply andb_true_iff in H. destruct H as [H Hs].
      apply andb_true_iff in H. destruct H as [Hc Ha].
      apply Z.eqb_eq in Hc. subst c.
      destruct tok as [|d tok]; [discriminate|].
      specialize (IH [] Hs). cbn [rev app] in IH.
      destruct (split_from [] s) as [|x r] eqn:Er.
      * cbn [join] in IH. subst s. discriminate.
      * change (join (lit " ") (rev (d :: tok) :: x :: r))
          with (rev (d :: tok) ++ 32 :: join (lit " ") (x :: r)).
        rewrite IH. reflexivity.
    + rewrite (IH (c :: tok) H). cbn [rev]. rewrite <- app_assoc. reflexivity.
Qed.

Lemma normal_fixed (s : str) : normal s = true -> normalize_text s = s.
Proof.
  intros H. rewrite normalize_text_join.
  destruct s as [|c s]; [reflexivity|].
  unfold split. rewrite join_split_from_well_spaced; [reflexivity | exact H].
Qed.

Lemma normalize_text_normal (s : str) : normal (normalize_text s) = true.
Proof.
  rewrite normalize_text_join.
  pose proof (split_tokens s) as Ht.
  destruct (split s) as [|t toks] eqn:E; [reflexivity|].
  assert (Hw : well_spaced true (join (lit " ") (t :: toks)) = true)
    by (apply well_spaced_join; [assumption | discriminate]).
  unfold normal. destruct (join (lit " ") (t :: toks)); [reflexivity | exact Hw].
Qed.

(** X1. The normal forms.  Every normalized text is empty or made of words
    without white space, separated by single U+0020 characters, and these
    are exactly the texts that normalization leaves as they are. *)
Theorem normalize_text_normal_forms (s : str) :
  normal (normalize_text s) = true
  /\ (normalize_text s = s <-> normal s = true).
Proof.
  split; [apply normalize_text_normal|]. split.
  - intros H. rewrite <- H. apply normalize_text_normal.
  - apply normal_fixed.
Qed.

(* ===================================================================== *)
(** ** The text a run stores *)
(* ===================================================================== *)

Lemma slice_to_prefix (s : str) (n : Z) :
  exists rest, s = slice_to s n ++ rest.
Proof.
  unfold slice_to. destruct (n <? 0); eexists; symmetry; apply firstn_skipn.
Qed.

Lemma slice_to_length (s : str) (n : Z) :
  (List.length (slice_to s n) <= List.length s)%nat
  /\ (0 <= n -> Z.of_nat (List.length (slice_to s n)) <= n).
Proof.
  unfold slice_to. destruct (n <? 0) eqn:E; rewrite length_firstn.
  - apply Z.ltb_lt in E. split; lia.
  - split; lia.
Qed.

Lemma slice_to_firstn (s : str) (n : Z) : exists k, slice_to s n = firstn k s.
Proof. unfold slice_to. destruct (n <? 0); eauto. Qed.

Lemma stored_text_of_report
  (unified_diff : list str -> list str -> list str) (py : python)
  (cfg : config) (observed : state_file) (title text now : str) (r : report) :
  computed (main unified_diff py cfg observed (Page title text) now) = Some r ->
  field (state_out r) (lit "last_text")
  = Some (slice_to (normalize_text text) (max_chars cfg))
  /\ snippet r = slice_to (slice_to (normalize_text text) (max_chars cfg)) 500
  /\ sha256 (slice_to (normalize_text text) (max_chars cfg)) = Some (cur_hash r).
Proof.
  intros H. apply main_computed in H.
  pose proof H as H'. apply compare_report in H'.
  destruct H' as (d & title' & text' & Hd & [= <- <-] & Hs & _ & _ & _ & _ & Hso).
  cbv zeta in Hs, Hso. rewrite Hso. split; [reflexivity|]. split; [|exact Hs].
  rewrite Hd, compare_dict in H. cbv zeta in H. rewrite Hs in H.
  destruct (diff_of _ _ _) as [dt|e]; [|discriminate].
  cbn [bind] in H. injection H as <-. reflexivity.
Qed.

(** X10. The bounds of what a run keeps.  The stored text is a prefix of
    the normalized page text, so it is no longer than the page text, and
    for a limit that is not negative it has at most [max_chars] characters
    (20000 when the configuration names no limit); the snippet is a prefix
    of the stored text of at most 500 characters. *)
Theorem stored_text_is_bounded
  (unified_diff : list str -> list str -> list str) (py : python)
  (cfg : config) (observed : state_file) (title text now : str) (r : report) :
  computed (main unified_diff py cfg observed (Page title text) now) = Some r ->
  exists t rest rest',
    field (state_out r) (lit "last_text") = Some t
    /\ normalize_text text = t ++ rest
    /\ t = snippet r ++ rest'
    /\ (List.length (snippet r) <= 500)%nat
    /\ (List.length t <= List.length text)%nat
    /\ (0 <= max_chars cfg -> Z.of_nat (List.length t) <= max_chars cfg)
    /\ (max_text_chars cfg = None -> Z.of_nat (List.length t) <= 20000).
Proof.
  intros H. apply stored_text_of_report in H. destruct H as (Hf & Hsn & _).
  set (t := slice_to (normalize_text text) (max_chars cfg)) in *.
  destruct (slice_to_prefix (normalize_text text) (max_chars cfg)) as [rest Hr].
  destruct (slice_to_prefix t 500) as [rest' Hr'].
  destruct (slice_to_length (normalize_text text) (max_chars cfg)) as [L1 L2].
  destruct (slice_to_length t 500) as [_ L3].
  pose proof (normalize_text_length text) as L4.
  exists t, rest, rest'. fold t in Hr, L1, L2. rewrite Hsn.
  unfold str, char in *.
  repeat split; try assumption; try lia.
  intros Hnone. unfold max_chars in L2. rewrite Hnone in L2. lia.
Qed.

Lemma stored_text_is_bounded_witness :
  computed Sample.first_run = Some Sample.first_report
  /\ exists t rest rest',
       field (state_out Sample.first_report) (lit "last_text") = Some t
       /\ normalize_text (lit "hello   world") = t ++ rest
       /\ t = snippet Sample.first_report ++ rest'
       /\ (List.length (snippet Sample.first_report) <= 500)%nat
       /\ (List.length t <= List.length (lit "hello   world"))%nat.
Proof.
  assert (H : computed Sample.first_run = Some Sample.first_report)
    by (vm_compute; reflexivity).
  split; [exact H|].
  destruct (stored_text_is_bounded Difflib.unified_diff Sample.py Sample.cfg NoFile
              (lit "Example") (lit "hello   world") Sample.monday
              Sample.first_report H)
    as (t & rest & rest' & H1 & H2 & H3 & H4 & H5 & _).
  exists t, rest, rest'. repeat split; assumption.
Defined.

Lemma well_spaced_spaced (s : str) (after : bool) :
  well_spaced after s = true -> spaced after s = true.
Proof.
  revert after; induction s as [|c s IH]; intros after; [reflexivity|].
  cbn [well_spaced spaced]. destruct (isspace c); [|apply IH].
  rewrite !andb_true_iff. intros [H Hs]. split; [exact H | apply IH, Hs].
Qed.

Lemma spaced_firstn (k : nat) (s : str) (after : bool) :
  spaced after s = true -> spaced after (firstn k s) = true.
Proof.
  revert s after; induction k as [|k IH]; intros s after H; [reflexivity|].
  destruct s as [|c s]; [reflexivity|].
  cbn [firstn spaced] in *. destruct (isspace c); [|apply IH, H].
  rewrite !andb_true_iff in *. destruct H as [H Hs]. split; [exact H|].
  apply IH, Hs.
Qed.

(** A spaced text is well spaced, or well spaced up to one last space. *)
Lemma spaced_cases (s : str) (after : bool) :
  spaced after s = true ->
  well_spaced after s = true
  \/ (exists s', s = s' ++ [32] /\ well_spaced after s' = true)
  \/ (s = [] /\ after = true).
Proof.
  revert after; induction s as [|c s IH]; intros after H.
  - destruct after; [right; right; auto | left; reflexivity].
  - cbn [spaced] in H. cbn [well_spaced]. destruct (isspace c) eqn:Ec.
    + rewrite !andb_true_iff in H. destruct H as [[Hc Ha] Hs].
      rewrite Hc, Ha. cbn [andb].
      destruct (IH true Hs) as [Hw | [[s' [-> Hw]] | [-> _]]].
      * left; exact Hw.
      * right; left. exists (c :: s'). split; [reflexivity|].
        cbn [well_spaced]. rewrite Ec, Hc, Ha. exact Hw.
      * right; left. exists []. apply Z.eqb_eq in Hc. subst c.
        split; [reflexivity|]. cbn [well_spaced]. exact Ha.
    + destruct (IH false H) as [Hw | [[s' [-> Hw]] | [_ Hf]]].
      * left; exact Hw.
      * right; left. exists (c :: s'). split; [reflexivity|].
        cbn [well_spaced]. rewrite Ec. exact Hw.
      * discriminate.
Qed.

Lemma split_from_trailing_space (s tok : str) (c : char) :
  isspace c = true -> split_from tok (s ++ [c]) = split_from tok s.
Proof.
  intros Hc. revert tok; induction s as [|d s IH]; intros tok.
  - cbn [app split_from]. rewrite Hc. destruct tok; reflexivity.
  - cbn [app split_from]. destruct (isspace d); [|apply IH].
    destruct tok; rewrite IH; reflexivity.
Qed.

Lemma normal_ends_clean (s : str) :
  normal s = true -> rstrip s = s.
Proof.
  intros H. apply normal_fixed in H. rewrite <- H at 1 2.
  rewrite normalize_text_join.
  apply rstrip_clean, join_ends_clean, split_tokens.
Qed.

(** A prefix of a normalized text, normalized again, loses at most the
    space it ends with. *)
Lemma normalize_text_prefix (s : str) (n : Z) :
  let t := slice_to (normalize_text s) n in
  normalize_text t = rstrip t
  /\ (t = normalize_text t \/ t = normalize_text t ++ [32]).
Proof.
  cbv zeta. destruct (slice_to_firstn (normalize_text s) n) as [k ->].
  pose proof (normalize_text_normal s) as Hn.
  assert (Hsp : spaced true (firstn k (normalize_text s)) = true).
  { destruct (normalize_text s) as [|c N] eqn:E.
    - rewrite firstn_nil. reflexivity.
    - apply spaced_firstn, well_spaced_spaced. exact Hn. }
  set (t := firstn k (normalize_text s)) in *.
  destruct (spaced_cases t true Hsp) as [Hw | [[t' [Ht Hw]] | [Ht _]]].
  - assert (Hnt : normal t = true) by (destruct t; [reflexivity | exact Hw]).
    rewrite (normal_fixed t Hnt), (normal_ends_clean t Hnt). auto.
  - assert (Hnt : normal t' = true) by (destruct t'; [reflexivity | exact Hw]).
    assert (E : normalize_text t = t').
    { rewrite Ht. unfold normalize_text, split.
      rewrite split_from_trailing_space by reflexivity.
      apply (normal_fixed t' Hnt). }
    rewrite E. split; [|right; exact Ht].
    rewrite Ht. unfold rstrip. rewrite rev_app_distr. cbn [rev app lstrip].
    rewrite isspace_space. symmetry. apply (normal_ends_clean t' Hnt).
  - rewrite Ht. split; [reflexivity | left; reflexivity].
Qed.

(** X11. The stored text is normalized up to one last space.  It is the cut
    of a normalized text, and the cut can fall right after a space:
    normalizing the stored text again removes that space and changes
    nothing else. *)
Theorem stored_text_is_normal_up_to_last_space
  (unified_diff : list str -> list str -> list str) (py : python)
  (cfg : config) (observed : state_file) (title text now : str) (r : report) :
  computed (main unified_diff py cfg observed (Page title text) now) = Some r ->
  exists t,
    field (state_out r) (lit "last_text") = Some t
    /\ normalize_text t = rstrip t
    /\ (t = normalize_text t \/ t = normalize_text t ++ [32]).
Proof.
  intros H. apply stored_text_of_report in H. destruct H as (Hf & _ & _).
  eexists. split; [exact Hf|]. apply normalize_text_prefix.
Qed.

Lemma stored_text_is_normal_up_to_last_space_witness :
  let x := main Difflib.unified_diff Sample.py (Sample.with_limit (Some 6))
                NoFile Sample.hello_world Sample.monday in
  Sample.stored x = Some (Some (lit "hello "))
  /\ exists r, computed x = Some r
       /\ exists t,
            field (state_out r) (lit "last_text") = Some t
            /\ normalize_text t = rstrip t
            /\ (t = normalize_text t \/ t = normalize_text t ++ [32]).
Proof.
  cbv zeta. split; [vm_compute; reflexivity|].
  destruct (computed (main Difflib.unified_diff Sample.py
                           (Sample.with_limit (Some 6))
                           NoFile Sample.hello_world Sample.monday))
    as [r|] eqn:E; [|vm_compute in E; discriminate E].
  exists r. split; [reflexivity|].
  exact (stored_text_is_normal_up_to_last_space
           Difflib.unified_diff Sample.py (Sample.with_limit (Some 6))
           NoFile (lit "Example") (lit "hello   world") Sample.monday r E).
Defined.

(* ===================================================================== *)
(** ** A run after a run *)
(* ===================================================================== *)

(** The comparison of a run that loads the state an earlier run built. *)
Lemma compare_after
  (unified_diff : list str -> list str -> list str) (py : python)
  (cfg : config) (url now h title cur title' text' now' : str) :
  compare unified_diff py cfg
          (load_state (Json (as_loaded (state_of url now h title cur))))
          (Page title' text') now'
  = let cur' := slice_to (normalize_text text') (max_chars cfg) in
    match sha256 cur' with
    | None => Raise UnicodeEncodeError
    | Some h' =>
        dt <- diff_of unified_diff py (PStr cur) cur' ;;
        Ok (Some {|
          status := if ne_str (PStr h) [] && ne_str (PStr h) h'
                    then CHANGE_DETECTED else NO_CHANGE_DETECTED;
          run_at := now';
          prev_hash := PStr h;
          cur_hash := h';
          snippet := slice_to cur' 500;
          diff_text := dt;
          state_out := state_of (target_url cfg) now' h' title' cur'
        |})
    end.
Proof. reflexivity. Qed.

(** What the report of the earlier run fixes in the state it built. *)
Lemma state_of_report
  (unified_diff : list str -> list str -> list str) (py : python)
  (cfg : config) (observed : state_file) (pg : page) (now : str) (r : report) :
  computed (main unified_diff py cfg observed pg now) = Some r ->
  exists title cur,
    state_out r = state_of (target_url cfg) now (cur_hash r) title cur
    /\ sha256 cur = Some (cur_hash r)
    /\ field (state_out r) (lit "last_text") = Some cur
    /\ Forall (fun c => islinebreak c = false) cur.
Proof.
  intros H. apply main_computed, compare_report in H.
  destruct H as (d & title & text & _ & _ & Hs & _ & _ & _ & _ & Hso).
  cbv zeta in Hs, Hso. eexists _, _. split; [exact Hso|].
  split; [exact Hs|]. split; [rewrite Hso; reflexivity|].
  apply slice_to_Forall, normalize_text_one_line.
Qed.

Lemma digest_not_empty (s h : str) : sha256 s = Some h -> ne_str (PStr h) [] = true.
Proof.
  intros H. destruct (ne_str (PStr h) []) eqn:E; [reflexivity|].
  apply ne_str_false in E. injection E as ->.
  apply sha256_digest_shape in H. destruct H as [H _]. discriminate H.
Qed.

Lemma ne_str_true (s t : str) : ne_str (PStr s) t = true <-> s <> t.
Proof.
  cbn [ne_str]. rewrite negb_true_iff. apply str_eqb_neq.
Qed.

(** X12. A run after a run on a page whose normalized and cut text is the
    same reports "No change detected" and stores the same text again,
    whatever the title and the time: a change in white space alone, or
    beyond the first [max_chars] characters, is not seen. *)
Theorem same_stored_text_is_no_change
  (unified_diff : list str -> list str -> list str) (py : python)
  (cfg : config) (observed : state_file)
  (title text now title' text' now' : str) (r : report) :
  computed (main unified_diff py cfg observed (Page title text) now) = Some r ->
  slice_to (normalize_text text') (max_chars cfg)
  = slice_to (normalize_text text) (max_chars cfg) ->
  exists r',
    computed (main unified_diff py cfg (Json (as_loaded (state_out r)))
                   (Page title' text') now') = Some r'
    /\ status r' = NO_CHANGE_DETECTED
    /\ cur_hash r' = cur_hash r
    /\ field (state_out r') (lit "last_text")
       = field (state_out r) (lit "last_text").
Proof.
  intros H Heq.
  pose proof (stored_text_of_report _ _ _ _ _ _ _ _ H) as (Hf & _ & Hs).
  destruct (state_of_report _ _ _ _ _ _ _ H) as (ti & cur & Hso & _ & Hf' & _).
  assert (Hcur : cur = slice_to (normalize_text text) (max_chars cfg))
    by congruence.
  destruct (diff_of_total unified_diff py (PStr cur)
              (slice_to (normalize_text text') (max_chars cfg)))
    as [dt Hdt]; [right; eauto|].
  eexists. split.
  - apply main_computed. rewrite Hso, compare_after. cbv zeta.
    rewrite Heq, Hs, <- Heq, Hdt. cbn [bind]. reflexivity.
  - cbn [status cur_hash state_out]. rewrite ne_str_same, andb_false_r.
    split; [reflexivity|]. split; [reflexivity|].
    rewrite Hf, Heq. reflexivity.
Qed.

Lemma same_stored_text_is_no_change_witness :
  computed Sample.first_run = Some Sample.first_report
  /\ slice_to (normalize_text [104; 101; 108; 108; 111; 10; 9; 119; 111;
                                114; 108; 100; 10]) (max_chars Sample.cfg)
     = slice_to (normalize_text (lit "hello   world")) (max_chars Sample.cfg)
  /\ exists r',
       computed (main Difflib.unified_diff Sample.py Sample.cfg Sample.after_first_run
                      (Page (lit "Other title")
                            [104; 101; 108; 108; 111; 10; 9; 119; 111;
                             114; 108; 100; 10])
                      Sample.tuesday) = Some r'
       /\ status r' = NO_CHANGE_DETECTED.
Proof.
  assert (H : computed Sample.first_run = Some Sample.first_report)
    by (vm_compute; reflexivity).
  assert (E : slice_to (normalize_text [104; 101; 108; 108; 111; 10; 9; 119;
                                         111; 114; 108; 100; 10])
                       (max_chars Sample.cfg)
              = slice_to (normalize_text (lit "hello   world"))
                         (max_chars Sample.cfg))
    by (vm_compute; reflexivity).
  split; [exact H|]. split; [exact E|].
  destruct (same_stored_text_is_no_change
              Difflib.unified_diff Sample.py Sample.cfg NoFile
              (lit "Example") (lit "hello   world") Sample.monday
              (lit "Other title")
              [104; 101; 108; 108; 111; 10; 9; 119; 111; 114; 108; 100; 10]
              Sample.tuesday Sample.first_report H E)
    as (r' & H1 & H2 & _).
  exists r'. split; assumption.
Defined.

(** X13. No false alarm.  When a run loads the state an earlier run built,
    it reports "Change detected" exactly when its hash differs from the
    stored hash, and then the text it stores differs from the stored text;
    the two runs may have different limits. *)
Theorem change_detected_means_text_changed
  (unified_diff : list str -> list str -> list str) (py : python)
  (cfg cfg' : config) (observed : state_file) (pg pg' : page)
  (now now' : str) (r r' : report) :
  computed (main unified_diff py cfg observed pg now) = Some r ->
  computed (main unified_diff py cfg' (Json (as_loaded (state_out r))) pg' now')
  = Some r' ->
  (status r' = CHANGE_DETECTED <-> cur_hash r' <> cur_hash r)
  /\ (status r' = CHANGE_DETECTED ->
      field (state_out r') (lit "last_text")
      <> field (state_out r) (lit "last_text")).
Proof.
  intros H H'.
  destruct (state_of_report _ _ _ _ _ _ _ H) as (ti & cur & Hso & Hs & Hf & _).
  destruct (state_of_report _ _ _ _ _ _ _ H') as (ti' & cur' & _ & Hs' & Hf' & _).
  apply main_computed in H'. rewrite Hso in H'.
  destruct pg' as [|title' text']; [discriminate H'|].
  rewrite compare_after in H'. cbv zeta in H'.
  destruct (sha256 _) as [h'|]; [|discriminate H'].
  destruct (diff_of _ _ _) as [dt|e]; [|discriminate H'].
  cbn [bind] in H'. injection H' as <-. cbn [status cur_hash] in *.
  pose proof (digest_not_empty _ _ Hs) as Hne. cbn [ne_str] in Hne.
  rewrite Hne. cbn [andb].
  assert (Hiff : (if negb (str_eqb (cur_hash r) h')
                  then CHANGE_DETECTED else NO_CHANGE_DETECTED)
                 = CHANGE_DETECTED <-> h' <> cur_hash r).
  { destruct (str_eqb (cur_hash r) h') eqn:E; cbn [negb].
    - apply str_eqb_eq in E. split; [discriminate | congruence].
    - apply str_eqb_neq in E. split; [intros _ Hh; congruence | reflexivity]. }
  split; [exact Hiff|].
  intros Hc. apply Hiff in Hc. rewrite Hf. cbn [state_out] in Hf' |- *.
  rewrite Hf'. intros [= ->].
  rewrite Hs in Hs'. congruence.
Qed.

Lemma change_detected_means_text_changed_witness :
  computed Sample.first_run = Some Sample.first_report
  /\ computed Sample.second_run = Some Sample.second_report
  /\ (status Sample.second_report = CHANGE_DETECTED
      <-> cur_hash Sample.second_report <> cur_hash Sample.first_report)
  /\ (status Sample.second_report = CHANGE_DETECTED ->
      field (state_out Sample.second_report) (lit "last_text")
      <> field (state_out Sample.first_report) (lit "last_text")).
Proof.
  assert (H : computed Sample.first_run = Some Sample.first_report)
    by (vm_compute; reflexivity).
  assert (H' : computed Sample.second_run = Some Sample.second_report)
    by (vm_compute; reflexivity).
  split; [exact H|]. split; [exact H'|].
  exact (change_detected_means_text_changed
           Difflib.unified_diff Sample.py Sample.cfg Sample.cfg NoFile
           Sample.hello_world Sample.hello_there Sample.monday Sample.tuesday
           Sample.first_report Sample.second_report H H').
Defined.

(* ===================================================================== *)
(** ** The diff a run shows *)
(* ===================================================================== *)

Lemma str_eqb_sym (s t : str) : str_eqb s t = str_eqb t s.
Proof.
  destruct (str_eqb s t) eqn:E.
  - apply str_eqb_eq in E. subst. symmetry. apply str_eqb_refl.
  - apply str_eqb_neq in E. symmetry. apply str_eqb_neq. congruence.
Qed.

(** Two different lines: both headers, one hunk, the old and the new line. *)
Lemma changed_line_diff (p c : str) :
  p <> c ->
  Difflib.unified_diff [p] [c]
  = [lit "--- previous"; lit "+++ current"; lit "@@ -1 +1 @@"; 45 :: p; 43 :: c].
Proof.
  intros H. apply str_eqb_neq in H.
  assert (H' : str_eqb c p = false) by (rewrite str_eqb_sym; exact H).
  unfold Difflib.unified_diff, Difflib.get_grouped_opcodes,
    Difflib.get_opcodes, Difflib.get_matching_blocks.
  cbn [List.length Nat.add Nat.mul].
  unfold Difflib.blocks_loop at 1.
  unfold Difflib.find_longest_match. cbn [Nat.sub List.length].
  unfold Difflib.match_rows, Difflib.b2j, Difflib.popular.
  cbn [List.length Nat.leb andb nth Difflib.indices_from].
  rewrite ?H, ?H'. cbn. rewrite ?H, ?H'. cbn. rewrite ?H, ?H'.
  reflexivity.
Qed.

(** One line against no line. *)
Lemma removed_line_diff (p : str) :
  Difflib.unified_diff [p] []
  = [lit "--- previous"; lit "+++ current"; lit "@@ -1 +0,0 @@"; 45 :: p].
Proof. reflexivity. Qed.

Lemma slice_to_not_nil (c : char) (s : str) :
  slice_to (c :: s) 5000 <> [].
Proof.
  unfold slice_to. cbn [Z.ltb Z.compare].
  destruct (Z.to_nat 5000) as [|k] eqn:E; [lia | discriminate].
Qed.

(** X14. The diff after a run of this program.  When a run loads the state
    an earlier run built, the stored and the current text are one line
    each, so the diff text is never cut at 220 lines: it is the notice when
    the stored text is empty; it is empty when the first 5000 characters of
    both texts agree, whatever the status; and otherwise it has the two
    headers, one hunk line, the old text after [-] and, unless it is empty,
    the new text after [+], each cut to 5000 characters. *)
Theorem diff_text_after_a_run (py : python)
  (cfg cfg' : config) (observed : state_file) (pg : page)
  (title' text' now now' : str) (r r' : report) :
  computed (main Difflib.unified_diff py cfg observed pg now) = Some r ->
  computed (main Difflib.unified_diff py cfg' (Json (as_loaded (state_out r)))
                 (Page title' text') now') = Some r' ->
  exists t t',
    field (state_out r) (lit "last_text") = Some t
    /\ field (state_out r') (lit "last_text") = Some t'
    /\ let p := slice_to t 5000 in
       let c := slice_to t' 5000 in
       diff_text r'
       = match t with
         | [] => NO_PREVIOUS
         | _ =>
             if str_eqb p c then []
             else match c with
                  | [] => join [10] [lit "--- previous"; lit "+++ current";
                                     lit "@@ -1 +0,0 @@"; 45 :: p]
                  | _ => join [10] [lit "--- previous"; lit "+++ current";
                                    lit "@@ -1 +1 @@"; 45 :: p; 43 :: c]
                  end
         end.
Proof.
  intros H H'.
  destruct (state_of_report _ _ _ _ _ _ _ H) as (ti & t & Hso & _ & Hf & Hl).
  destruct (state_of_report _ _ _ _ _ _ _ H') as (ti' & t' & _ & _ & Hf' & Hl').
  pose proof (stored_text_of_report _ _ _ _ _ _ _ _ H') as (Hf'' & _ & _).
  assert (Ht' : t' = slice_to (normalize_text text') (max_chars cfg'))
    by congruence.
  exists t, t'. split; [exact Hf|]. split; [exact Hf'|]. cbv zeta.
  apply main_computed in H'. rewrite Hso, compare_after in H'. cbv zeta in H'.
  rewrite <- Ht' in H'.
  destruct (sha256 t') as [h'|]; [|discriminate H'].
  destruct t as [|c0 t0].
  - rewrite diff_of_absent in H' by reflexivity. cbn [bind] in H'.
    injection H' as <-. reflexivity.
  - rewrite diff_of_text in H' by discriminate. cbn [bind] in H'.
    injection H' as <-. cbn [diff_text]. unfold build_diff.
    set (p := slice_to (c0 :: t0) 5000).
    set (c := slice_to t' 5000).
    assert (Hp : splitlines p = [p]).
    { apply splitlines_one_line;
        [apply slice_to_Forall, Hl | apply slice_to_not_nil]. }
    rewrite Hp.
    destruct (str_eqb p c) eqn:E.
    + apply str_eqb_eq in E. rewrite <- E, Hp, same_line_has_no_diff.
      reflexivity.
    + apply str_eqb_neq in E. destruct c as [|c1 c'] eqn:Ec.
      * cbn [splitlines splitlines_from]. rewrite removed_line_diff.
        reflexivity.
      * rewrite splitlines_one_line;
          [| rewrite <- Ec; apply slice_to_Forall, Hl' | discriminate].
        rewrite changed_line_diff by exact E. reflexivity.
Qed.

Lemma diff_text_after_a_run_witness :
  computed Sample.first_run = Some Sample.first_report
  /\ computed Sample.second_run = Some Sample.second_report
  /\ diff_text Sample.second_report
     = join [10] [lit "--- previous"; lit "+++ current"; lit "@@ -1 +1 @@";
                  lit "-hello world"; lit "+hello there"].
Proof.
  assert (H : computed Sample.first_run = Some Sample.first_report)
    by (vm_compute; reflexivity).
  assert (H' : computed Sample.second_run = Some Sample.second_report)
    by (vm_compute; reflexivity).
  split; [exact H|]. split; [exact H'|].
  destruct (diff_text_after_a_run Sample.py Sample.cfg Sample.cfg NoFile
              Sample.hello_world (lit "Example") (lit "hello there")
              Sample.monday Sample.tuesday
              Sample.first_report Sample.second_report H H')
    as (t & t' & Ht & Ht' & Hd).
  injection Ht as <-. injection Ht' as <-. exact Hd.
Defined.

(** X15. With the diff of CPython, the marker line is in the output of
    [build_diff] exactly when lines were cut; it is then the last line, and
    none of the lines before it is the marker. *)
Theorem marker_marks_truncation (prev cur : str) (max_lines : Z) :
  let natural := Difflib.unified_diff (splitlines prev) (splitlines cur) in
  let n := Z.to_nat max_lines in
  let out := build_diff_out 0 natural max_lines in
  build_diff Difflib.unified_diff prev cur max_lines = join [10] out
  /\ (In DIFF_TRUNCATED out <-> (n < List.length natural)%nat)
  /\ ((n < List.length natural)%nat ->
      out = firstn n natural ++ [DIFF_TRUNCATED]
      /\ ~ In DIFF_TRUNCATED (firstn n natural)).
Proof.
  intros natural n out. split; [reflexivity|].
  pose proof (marker_is_no_diff_line (splitlines prev) (splitlines cur)) as Hm.
  fold natural in Hm. rewrite Forall_forall in Hm.
  assert (Hout : out = if (List.length natural <=? n)%nat then natural
                       else firstn n natural ++ [DIFF_TRUNCATED]).
  { subst out. rewrite build_diff_out_from, Z.sub_0_r. reflexivity. }
  assert (Hno : ~ In DIFF_TRUNCATED (firstn n natural)).
  { intros Hin. apply (Hm DIFF_TRUNCATED); [|reflexivity].
    rewrite <- (firstn_skipn n natural). apply in_or_app. left; exact Hin. }
  destruct (List.length natural <=? n)%nat eqn:E.
  - apply Nat.leb_le in E. split; [|intros; lia].
    rewrite Hout. split; [|intros; lia].
    intros Hin. exfalso. apply (Hm DIFF_TRUNCATED); [exact Hin | reflexivity].
  - apply Nat.leb_gt in E. rewrite Hout. split; [|auto].
    split; [intros _; exact E|].
    intros _. apply in_or_app. right. left. reflexivity.
Qed.

(* ===================================================================== *)
(** ** Runs that fail *)
(* ===================================================================== *)

(** X6. A failed fetch never touches the state.  Whatever the state file
    holds, a run whose fetch fails computes no report and writes nothing;
    it returns 1 when the loaded state is a dict, and it raises
    [AttributeError], before it would fetch, when it is not. *)
Theorem failed_fetch_keeps_state
  (unified_diff : list str -> list str -> list str) (py : python)
  (cfg : config) (observed : state_file) (now : str) :
  let x := main unified_diff py cfg observed FetchError now in
  saved x = None
  /\ computed x = None
  /\ ((exists d, load_state observed = PDict d) -> ended x = Exit1)
  /\ ((forall d, load_state observed <> PDict d) ->
      ended x = Uncaught AttributeError).
Proof.
  cbv zeta. unfold main.
  destruct (load_state observed) as [| | | | | |d] eqn:E; cbn;
    repeat split; try reflexivity;
    try (intros [d' Hd]; discriminate Hd);
    intros Hd; exfalso; apply (Hd d); reflexivity.
Qed.

Lemma diff_of_raises (unified_diff : list str -> list str -> list str)
  (py : python) (v : pyval) (cur : str) (e : exn) :
  diff_of unified_diff py v cur = Raise e ->
  e = AttributeError \/ e = TypeError \/ e = KeyError.
Proof.
  unfold diff_of. destruct (truthy v); [|discriminate].
  destruct v; try destruct py; intros [= <-]; auto.
Qed.

(** X7. A page text that cannot be encoded.  For a fetched page, the run
    raises [UnicodeEncodeError] with no report and nothing written exactly
    when the loaded state is a dict and the normalized and cut text holds a
    code point without a UTF-8 encoding, a lone surrogate; a surrogate
    beyond the cut does no harm. *)
Theorem unencodable_text_raises
  (unified_diff : list str -> list str -> list str) (py : python)
  (cfg : config) (observed : state_file) (title text now : str) :
  main unified_diff py cfg observed (Page title text) now
  = Run (Uncaught UnicodeEncodeError) None None
  <-> (exists d, load_state observed = PDict d)
      /\ ~ encodable (slice_to (normalize_text text) (max_chars cfg)).
Proof.
  unfold main.
  destruct (load_state observed) as [| | | | | |d] eqn:E;
    try (cbn; split; [discriminate | intros [[d' Hd] _]; discriminate Hd]).
  rewrite compare_dict. cbv zeta.
  set (cur := slice_to (normalize_text text) (max_chars cfg)).
  destruct (sha256 cur) as [h|] eqn:Eh.
  - assert (Hcur : encodable cur) by (apply (sha256_encodable cur h Eh)).
    split; [|intros [_ Hn]; contradiction].
    destruct (diff_of _ _ _ _) as [dt|e] eqn:Ed; cbn [bind].
    + destruct (write_pages _ _ _) as [u|e]; cbv beta iota;
        [|discriminate].
      destruct (save_state NoFault _ None) as [dk [u'|e]];
        intros H; cbv beta iota in H; discriminate H.
    + intros H; cbv beta iota in H.
      apply diff_of_raises in Ed. destruct Ed as [-> | [-> | ->]];
        discriminate H.
  - split; [|reflexivity]. intros _. split; [eauto|].
    intros Hcur. destruct (sha256_some cur Hcur) as [b [_ Hb]]. congruence.
Qed.

(** X8. A state file that holds JSON other than an object.  When
    [json.load] reads a truthy value that is no dict (a list, a string, a
    number, [true]), [load_state] hands it on, and every run raises
    [AttributeError] at [state.get], before the fetch, with nothing
    written: the file stays as it is, and so does the failure. *)
Theorem state_that_is_no_object_raises
  (unified_diff : list str -> list str -> list str) (py : python)
  (cfg : config) (v : pyval) (pg : page) (now : str) :
  truthy v = true ->
  (forall d, v <> PDict d) ->
  load_state (Json v) = v
  /\ main unified_diff py cfg (Json v) pg now
     = Run (Uncaught AttributeError) None None.
Proof.
  intros Ht Hd. assert (Hl : load_state (Json v) = v).
  { cbn [load_state]. rewrite Ht. reflexivity. }
  split; [exact Hl|]. unfold main. rewrite Hl.
  destruct v as [| | | | | |d]; try reflexivity.
  exfalso. apply (Hd d). reflexivity.
Qed.

Lemma state_that_is_no_object_raises_witness :
  truthy (PList [PInt 1]) = true
  /\ (forall d, PList [PInt 1] <> PDict d)
  /\ load_state Sample.list_file = PList [PInt 1]
  /\ main Difflib.unified_diff Sample.py Sample.cfg Sample.list_file Sample.hello_world
          Sample.monday
     = Run (Uncaught AttributeError) None None.
Proof.
  assert (H1 : truthy (PList [PInt 1]) = true) by reflexivity.
  assert (H2 : forall d, PList [PInt 1] <> PDict d) by (intros d; discriminate).
  split; [exact H1|]. split; [exact H2|].
  exact (state_that_is_no_object_raises Difflib.unified_diff Sample.py Sample.cfg
           (PList [PInt 1]) Sample.hello_world Sample.monday H1 H2).
Defined.

(** X9. A stored text that is no string.  When the state is a dict whose
    [last_text] is truthy but no string, a run with a fetched page whose
    text can be encoded raises while it builds the diff, with no report and
    nothing written: [AttributeError] for a list, [TypeError] for a number
    or [true], and for a dict [TypeError] before Python 3.12 and [KeyError]
    from Python 3.12 on. *)
Theorem stored_text_that_is_no_string_raises
  (unified_diff : list str -> list str -> list str) (py : python)
  (cfg : config) (observed : state_file) (d : list (str * pyval))
  (title text now : str) :
  load_state observed = PDict d ->
  truthy (dict_get d (lit "last_text") (PStr [])) = true ->
  (forall p, dict_get d (lit "last_text") (PStr []) <> PStr p) ->
  encodable text ->
  main unified_diff py cfg observed (Page title text) now
  = Run (Uncaught (match dict_get d (lit "last_text") (PStr []) with
                   | PList _ => AttributeError
                   | PDict _ => match py with
                                | Before_3_12 => TypeError
                                | From_3_12 => KeyError
                                end
                   | _ => TypeError
                   end)) None None.
Proof.
  intros Hl Ht Hp Hx. unfold main. rewrite Hl, compare_dict. cbv zeta.
  set (cur := slice_to (normalize_text text) (max_chars cfg)).
  assert (Hcur : encodable cur)
    by (apply slice_to_encodable, normalize_text_encodable, Hx).
  destruct (sha256_some cur Hcur) as [b [_ Hh]]. rewrite Hh.
  unfold diff_of. rewrite Ht.
  destruct (dict_get d (lit "last_text") (PStr [])) as [| | | |p| |];
    try reflexivity.
  exfalso. apply (Hp p). reflexivity.
Qed.

Lemma stored_text_that_is_no_string_raises_witness :
  let d := [(lit "last_hash", PStr (lit "abc"));
            (lit "last_text", PDict [(lit "a", PInt 5)])] in
  load_state (Json (PDict d)) = PDict d
  /\ truthy (dict_get d (lit "last_text") (PStr [])) = true
  /\ (forall p, dict_get d (lit "last_text") (PStr []) <> PStr p)
  /\ encodable (lit "hello   world")
  /\ main Difflib.unified_diff From_3_12 Sample.cfg (Json (PDict d))
          Sample.hello_world Sample.monday
     = Run (Uncaught KeyError) None None
  /\ main Difflib.unified_diff Before_3_12 Sample.cfg (Json (PDict d))
          Sample.hello_world Sample.monday
     = Run (Uncaught TypeError) None None.
Proof.
  cbv zeta.
  set (d := [(lit "last_hash", PStr (lit "abc"));
             (lit "last_text", PDict [(lit "a", PInt 5)])]).
  assert (H1 : load_state (Json (PDict d)) = PDict d) by reflexivity.
  assert (H2 : truthy (dict_get d (lit "last_text") (PStr [])) = true)
    by reflexivity.
  assert (H3 : forall p, dict_get d (lit "last_text") (PStr []) <> PStr p)
    by (intros p; discriminate).
  assert (H4 : encodable (lit "hello   world")) by (vm_compute; discriminate).
  split; [exact H1|]. split; [exact H2|]. split; [exact H3|].
  split; [exact H4|]. split.
  - exact (stored_text_that_is_no_string_raises Difflib.unified_diff
             From_3_12 Sample.cfg (Json (PDict d)) d (lit "Example")
             (lit "hello   world") Sample.monday H1 H2 H3 H4).
  - exact (stored_text_that_is_no_string_raises Difflib.unified_diff
             Before_3_12 Sample.cfg (Json (PDict d)) d (lit "Example")
             (lit "hello   world") Sample.monday H1 H2 H3 H4).
Defined.

(* ===================================================================== *)
(** ** The page and the state *)
(* ===================================================================== *)



(* ===================================================================== *)
(** ** The start of a run *)
(* ===================================================================== *)

Lemma startswith_prefix (s prefix : str) :
  startswith s prefix = true <-> exists rest, s = prefix ++ rest.
Proof.
  revert s; induction prefix as [|p prefix IH]; intros s.
  - cbn. split; [eauto | reflexivity].
  - destruct s as [|c s]; cbn [startswith].
    + split; [discriminate | intros [rest H]; discriminate H].
    + rewrite andb_true_iff, Z.eqb_eq, IH. split.
      * intros [-> [rest ->]]. exists rest. reflexivity.
      * intros [rest [= -> ->]]. eauto.
Qed.

Lemma dict_get_default (d : list (str * pyval)) (k : str) (a b v : pyval) :
  dict_get d k a = v -> v <> a -> dict_get d k b = v.
Proof.
  induction d as [|[k' w] d IH]; cbn [dict_get]; [congruence|].
  destruct (str_eqb k' k); auto.
Qed.

(** X16. [--selftest].  A run with [--selftest] returns 0 exactly when
    [config.json] holds an object whose [target_url] is a string that
    begins with [http://] or [https://] and both directories can be made;
    nothing more of the address is checked.  It raises [AttributeError]
    exactly when the object has a truthy [target_url] that is no string,
    which [load_config] accepts. *)
Theorem selftest_accepts
  (f : config_file) (dirs_ok : bool) :
  (start true f dirs_ok = Returned 0
   <-> exists cfg url rest,
         f = ConfigJson (PDict cfg)
         /\ dict_get cfg (lit "target_url") PNone = PStr url
         /\ (url = lit "http://" ++ rest \/ url = lit "https://" ++ rest)
         /\ dirs_ok = true)
  /\ (start true f dirs_ok = Raised AttributeError
      <-> exists cfg,
            f = ConfigJson (PDict cfg)
            /\ truthy (dict_get cfg (lit "target_url") PNone) = true
            /\ forall url, dict_get cfg (lit "target_url") PNone <> PStr url).
Proof.
  assert (Hother : forall g, (forall cfg, g <> ConfigJson (PDict cfg)) ->
                             start true g dirs_ok = Returned 1).
  { intros g Hg. unfold start, load_config.
    destruct g as [| |v]; try reflexivity.
    destruct v; try reflexivity. exfalso. eapply Hg. reflexivity. }
  assert (Hdec : (exists cfg, f = ConfigJson (PDict cfg))
                 \/ forall cfg, f <> ConfigJson (PDict cfg)).
  { destruct f as [| |v]; try (right; intros; discriminate).
    destruct v; try (right; intros; discriminate). left; eauto. }
  destruct Hdec as [[cfg ->] | Hno].
  2:{ rewrite (Hother f Hno). split; split; try discriminate.
      - intros (cfg & _ & _ & Hf & _). exfalso. apply (Hno cfg Hf).
      - intros (cfg & Hf & _). exfalso. apply (Hno cfg Hf). }
  unfold start, load_config.
  destruct (truthy (dict_get cfg (lit "target_url") PNone)) eqn:Et.
  2:{ split; split; try discriminate.
      - intros (cfg' & url & rest & [= <-] & Hg & Hu & _).
        rewrite Hg in Et. destruct Hu as [-> | ->]; discriminate Et.
      - intros (cfg' & [= <-] & Ht & _). congruence. }
  unfold selftest.
  destruct (dict_get cfg (lit "target_url") PNone) as [| | | |url| |] eqn:Eg;
    try discriminate Et;
    try solve
      [ match goal with
        | Eg : dict_get cfg _ PNone = ?v |- _ =>
            rewrite (dict_get_default cfg _ PNone (PStr []) v Eg)
              by discriminate
        end;
        split; split;
        [ discriminate
        | intros (cfg' & url & rest & [= <-] & H & _); rewrite Eg in H;
          discriminate H
        | intros _; exists cfg; rewrite Eg; split; [reflexivity|];
          split; [exact Et | intros; discriminate]
        | reflexivity ] ].
  rewrite (dict_get_default cfg _ PNone (PStr []) (PStr url) Eg)
    by discriminate.
  split; split.
  - destruct (startswith url (lit "http://")) eqn:E1;
      [|destruct (startswith url (lit "https://")) eqn:E2];
      cbn [orb negb]; try discriminate;
      destruct dirs_ok; try discriminate; intros _.
    + apply startswith_prefix in E1. destruct E1 as [rest E1].
      exists cfg, url, rest. auto.
    + apply startswith_prefix in E2. destruct E2 as [rest E2].
      exists cfg, url, rest. auto.
  - intros (cfg' & url' & rest & [= <-] & Hg & Hu & ->).
    rewrite Eg in Hg. injection Hg as <-.
    assert (Hs : startswith url (lit "http://")
                 || startswith url (lit "https://") = true).
    { apply orb_true_iff. destruct Hu as [Hu | Hu]; [left | right];
        apply startswith_prefix; eauto. }
    rewrite Hs. reflexivity.
  - destruct (negb _); [discriminate|]. destruct dirs_ok; discriminate.
  - intros (cfg' & [= <-] & _ & Hn). exfalso. apply (Hn url). exact Eg.
Qed.

(* ===================================================================== *)
(** ** What [save_state] writes determines the state *)
(* ===================================================================== *)

Lemma lor_high_low (h x n : Z) :
  0 <= n -> 0 <= x < 2 ^ n -> Z.lor (h * 2 ^ n) x = h * 2 ^ n + x.
Proof.
  intros Hn Hx.
  assert (Hl : Z.land (h * 2 ^ n) x = 0).
  { apply Z.bits_inj'. intros m Hm. rewrite Z.land_spec, Z.bits_0.
    destruct (Z.lt_ge_cases m n) as [Hlt|Hge].
    - rewrite Z.mul_pow2_bits_low by lia. reflexivity.
    - assert (Hb : Z.testbit x m = false).
      { destruct (Z.eq_dec x 0) as [->|Hx0]; [apply Z.bits_0|].
        apply Z.bits_above_log2; [lia|].
        apply Z.log2_lt_pow2; [lia|].
        apply Z.lt_le_trans with (2 ^ n); [lia|].
        apply Z.pow_le_mono_r; lia. }
      rewrite Hb. apply andb_false_r. }
  pose proof (Z.add_lor_land (h * 2 ^ n) x) as H. rewrite Hl in H. lia.
Qed.

Lemma lor_80 (x : Z) : 0 <= x < 64 -> Z.lor 0x80 x = 0x80 + x.
Proof. intros H. apply (lor_high_low 2 x 6); [lia|exact H]. Qed.

Lemma lor_C0 (x : Z) : 0 <= x < 64 -> Z.lor 0xC0 x = 0xC0 + x.
Proof. intros H. apply (lor_high_low 3 x 6); [lia|exact H]. Qed.

Lemma lor_E0 (x : Z) : 0 <= x < 32 -> Z.lor 0xE0 x = 0xE0 + x.
Proof. intros H. apply (lor_high_low 7 x 5); [lia|]. change (2 ^ 5) with 32. lia. Qed.

Lemma lor_F0 (x : Z) : 0 <= x < 16 -> Z.lor 0xF0 x = 0xF0 + x.
Proof. intros H. apply (lor_high_low 15 x 4); [lia|]. change (2 ^ 4) with 16. lia. Qed.

Lemma land_3F (x : Z) : Z.land x 0x3F = x mod 64.
Proof. exact (Z.land_ones x 6 ltac:(lia)). Qed.

Lemma shiftr_6 (x : Z) : Z.shiftr x 6 = x / 64.
Proof. exact (Z.shiftr_div_pow2 x 6 ltac:(lia)). Qed.
Lemma shiftr_12 (x : Z) : Z.shiftr x 12 = x / 4096.
Proof. exact (Z.shiftr_div_pow2 x 12 ltac:(lia)). Qed.
Lemma shiftr_18 (x : Z) : Z.shiftr x 18 = x / 262144.
Proof. exact (Z.shiftr_div_pow2 x 18 ltac:(lia)). Qed.

Ltac dlia := Z.div_mod_to_equations; lia.

Ltac ltb_cases :=
  repeat match goal with
  | |- context [?a <? ?b] => destruct (Z.ltb_spec a b); try dlia
  end.

Lemma some_inj {A : Type} (x y : A) : Some x = Some y -> x = y.
Proof. intros H. injection H as H. exact H. Qed.

Lemma utf8_decode_char (c : char) (bs r : bytes) :
  utf8_char c = Some bs -> utf8_decode (bs ++ r) = c :: utf8_decode r.
Proof.
  unfold utf8_char. unfold char in *.
  destruct (Z.ltb_spec c 0); [discriminate|].
  destruct (Z.ltb_spec c 0x80).
  { intros Hb. apply some_inj in Hb. subst bs.
    cbn [app utf8_decode]. ltb_cases. reflexivity. }
  rewrite !land_3F, shiftr_6, shiftr_12, shiftr_18.
  destruct (Z.ltb_spec c 0x800).
  { rewrite lor_C0, lor_80 by dlia.
    intros Hb. apply some_inj in Hb. subst bs.
    cbn [app utf8_decode]. ltb_cases; try dlia. f_equal. dlia. }
  destruct (Z.ltb_spec c 0x10000).
  { destruct (_ && _); [discriminate|].
    rewrite lor_E0, !lor_80 by dlia.
    intros Hb. apply some_inj in Hb. subst bs.
    cbn [app utf8_decode]. ltb_cases; try dlia. f_equal. dlia. }
  destruct (Z.ltb_spec c 0x110000); [|discriminate].
  rewrite lor_F0, !lor_80 by dlia.
  intros Hb. apply some_inj in Hb. subst bs.
  cbn [app utf8_decode]. ltb_cases; try dlia. f_equal. dlia.
Qed.

Lemma utf8_decode_encode (s : str) (b : bytes) :
  encode_utf8 s = Some b -> utf8_decode b = s.
Proof.
  revert b; induction s as [|c s IH]; intros b; cbn [encode_utf8].
  - intros [= <-]. reflexivity.
  - destruct (utf8_char c) as [bc|] eqn:Ec; [|discriminate].
    destruct (encode_utf8 s) as [bs|]; [|discriminate].
    intros [= <-]. rewrite (utf8_decode_char _ _ _ Ec), (IH bs eq_refl).
    reflexivity.
Qed.

Lemma encode_utf8_inj (s t : str) (b : bytes) :
  encode_utf8 s = Some b -> encode_utf8 t = Some b -> s = t.
Proof.
  intros Hs Ht. rewrite <- (utf8_decode_encode _ _ Hs).
  apply utf8_decode_encode, Ht.
Qed.

Lemma hexval_hexchar (n : Z) : hexval (Sha256.hexchar n) = n mod 16.
Proof.
  unfold hexval, Sha256.hexchar. cbv zeta.
  assert (L : Z.land n 0xF = n mod 16) by exact (Z.land_ones n 4 ltac:(lia)).
  rewrite L. assert (0 <= n mod 16 < 16) by dlia.
  destruct (Z.ltb_spec (n mod 16) 10); ltb_cases; lia.
Qed.

Lemma json_scan_escape (c : char) (tail : str) :
  json_scan (json_escape c ++ tail)
  = match json_scan tail with
    | Some (v, r) => Some (c :: v, r)
    | None => None
    end.
Proof.
  unfold json_escape. unfold char in *.
  destruct (Z.eqb_spec c 34) as [->|N1]; [reflexivity|].
  destruct (Z.eqb_spec c 92) as [->|N2]; [reflexivity|].
  destruct (Z.eqb_spec c 8) as [->|N3]; [reflexivity|].
  destruct (Z.eqb_spec c 12) as [->|N4]; [reflexivity|].
  destruct (Z.eqb_spec c 10) as [->|N5]; [reflexivity|].
  destruct (Z.eqb_spec c 13) as [->|N6]; [reflexivity|].
  destruct (Z.eqb_spec c 9) as [->|N7]; [reflexivity|].
  destruct ((0 <=? c) && (c <? 0x20)) eqn:E.
  - apply andb_true_iff in E. destruct E as [E1 E2].
    apply Z.leb_le in E1. apply Z.ltb_lt in E2.
    cbn [app json_scan].
    change (92 =? 34) with false. change (92 =? 92) with true.
    change (117 =? 117) with true. cbv iota.
    rewrite !hexval_hexchar, (Z.shiftr_div_pow2 c 4) by lia.
    change (2 ^ 4) with 16.
    replace (c / 16 mod 16 * 16 + c mod 16) with c by dlia.
    reflexivity.
  - cbn [app json_scan].
    rewrite (proj2 (Z.eqb_neq c 34) N1), (proj2 (Z.eqb_neq c 92) N2).
    reflexivity.
Qed.

Lemma json_scan_string (s tail : str) :
  json_scan (flat_map json_escape s ++ 34 :: tail) = Some (s, tail).
Proof.
  induction s as [|c s IH]; [reflexivity|].
  cbn [flat_map]. rewrite <- app_assoc, json_scan_escape, IH. reflexivity.
Qed.

(** What follows the opening quote of a written string determines the
    string and what follows its closing quote. *)
Lemma json_string_tail_inj (s s' tail tail' : str) :
  json_string s ++ tail = json_string s' ++ tail' -> s = s' /\ tail = tail'.
Proof.
  unfold json_string. cbn [app]. rewrite <- !app_assoc. cbn [app].
  intros H. injection H as H. apply (f_equal json_scan) in H.
  rewrite !json_scan_string in H. injection H as -> ->. auto.
Qed.

Lemma json_items_inj (first : bool) (d d' : list (str * str)) :
  List.concat (json_items first d) ++ [10; 125]
  = List.concat (json_items first d') ++ [10; 125] -> d = d'.
Proof.
  revert first d'; induction d as [|[k v] d IH]; intros first [|[k' v'] d'].
  - reflexivity.
  - destruct first; discriminate.
  - destruct first; discriminate.
  - cbn [json_items].
    assert (E : forall k v d,
      List.concat ((if first then [] else [[44; 10; 32; 32]])
                   ++ [json_string k; lit ": "; json_string v]
                   ++ json_items false d) ++ [10; 125]
      = (if first then [] else [44; 10; 32; 32])
        ++ json_string k ++ lit ": " ++ json_string v
        ++ List.concat (json_items false d) ++ [10; 125]).
    { intros k0 v0 d0. rewrite !concat_app.
      destruct first; cbn [List.concat app]; rewrite ?app_nil_r, <- ?app_assoc;
        reflexivity. }
    rewrite !E. intros H. apply app_inv_head in H.
    apply json_string_tail_inj in H. destruct H as [<- H].
    apply app_inv_head in H.
    apply json_string_tail_inj in H. destruct H as [<- H].
    apply IH in H. subst d'. reflexivity.
Qed.

Lemma json_dump_inj (d d' : list (str * str)) :
  List.concat (json_dump_chunks d) = List.concat (json_dump_chunks d') ->
  d = d'.
Proof.
  assert (E : forall p d, List.concat (json_dump_chunks (p :: d))
    = [123; 10; 32; 32] ++ List.concat (json_items true (p :: d)) ++ [10; 125]).
  { intros p d0. cbn [json_dump_chunks]. rewrite !concat_app. reflexivity. }
  destruct d as [|p d], d' as [|p' d']; [reflexivity| | |].
  - rewrite E. destruct p' as [k v]. discriminate.
  - rewrite E. destruct p as [k v]. discriminate.
  - rewrite !E. intros H. apply app_inv_head in H.
    apply json_items_inj in H. exact H.
Qed.

Lemma save_state_inj (d d' : list (str * str)) (b : bytes) :
  save_state NoFault d None = (Some b, Ok tt) ->
  save_state NoFault d' None = (Some b, Ok tt) ->
  d = d'.
Proof.
  intros H H'.
  assert (F : forall s, save_state NoFault s None = (Some b, Ok tt) ->
            encode_utf8 (List.concat (json_dump_chunks s)) = Some b).
  { intros s Hs.
    assert (Hok : Forall encodable (json_dump_chunks s)).
    { apply save_state_ok. rewrite Hs. reflexivity. }
    destruct (save_state_complete s Hok) as (b0 & Hb0 & He).
    congruence. }
  apply json_dump_inj.
  exact (encode_utf8_inj _ _ _ (F _ H) (F _ H')).
Qed.

(** X17. [save_state] loses nothing: when two calls return without
    raising and leave the same bytes in the state file, they were given
    the same state, key by key and value by value, whatever characters the
    values hold (quotes, backslashes, line breaks, control characters). *)
Theorem saved_file_determines_state
  (state state' : list (str * str)) (before before' : disk) (b : bytes) :
  save_state NoFault state before = (Some b, Ok tt) ->
  save_state NoFault state' before' = (Some b, Ok tt) ->
  state = state'.
Proof.
  intros H H'. exact (save_state_inj state state' b H H').
Qed.

Lemma saved_file_determines_state_witness :
  state_of (lit "https://example.org/") Sample.monday
    Sample.hash_hello_world [34; 92; 10; 1] (lit "hello world")
  = state_of (lit "https://example.org/") Sample.monday
      Sample.hash_hello_world [34; 92; 10; 1] (lit "hello world").
Proof.
  set (state := state_of _ _ _ _ _).
  apply (saved_file_determines_state state state None (Some [1; 2])
           (match fst (save_state NoFault state None) with
            | Some b => b
            | None => []
            end));
    vm_compute; reflexivity.
Defined.
